(** * MediInsight: the synthetic appointment cohort and its KPIs

    A shallow embedding of [src/code.py]: the cohort generator
    [load_data] (lines 18-54), the KPI block of the dashboard page
    (lines 93-113), the breakdown of the no-shows by gender (line 154),
    the search filter (lines 172-179), the high-risk queue (line 203) and
    the keys of its cards (lines 207-213).

    Conventions.
    - A Python [int] is a [Z]; a Python [str] is a [string] whose
      characters are the code points below 256 (enough for the
      identifiers and the five neighbourhood names of the source).
    - A raised exception is the [Raised] outcome of a computation.
    - numpy's global random state and the wall clock are read from a
      [World]: a tape of raw draws and a tape of clock readings, each with
      a cursor.  A statement quantified over every [World] covers every
      run of the program.
    - A Python [float] is a binary64 primitive float. *)

From Stdlib Require Import ZArith List Ascii String Floats Lia Permutation.
From stdpp Require Import base list strings pretty gmap.

Local Open Scope Z_scope.

(** ** Exceptions and outcomes *)

Inductive exn : Type :=
| KeyError (key : string)
| ZeroDivisionError
| ValueError (msg : string)
| IndexingError.

Inductive outcome (A : Type) : Type :=
| Returned (a : A)
| Raised (e : exn).
Arguments Returned {A} a.
Arguments Raised {A} e.

#[global] Instance outcome_ret : MRet outcome := fun A a => Returned a.
#[global] Instance outcome_bind : MBind outcome := fun A B f m =>
  match m with
  | Returned a => f a
  | Raised e => Raised e
  end.

(** ** The world: random draws and clock readings *)

Record World : Type := mkWorld {
  tape : nat -> N;      (* the raw draws of numpy's global generator *)
  drawn : nat;          (* how many of them were consumed *)
  clock : nat -> Z;     (* what successive calls of the clock read, in microseconds *)
  read : nat            (* how many readings were taken *)
}.

Definition M (A : Type) : Type := World -> outcome (A * World).

#[global] Instance M_ret : MRet M := fun A a w => Returned (a, w).
#[global] Instance M_bind : MBind M := fun A B f m w =>
  match m w with
  | Returned (a, w') => f a w'
  | Raised e => Raised e
  end.

Definition raise {A : Type} (e : exn) : M A := fun _ => Raised e.

Definition next_draw : M N := fun w =>
  Returned (tape w (drawn w), mkWorld (tape w) (S (drawn w)) (clock w) (read w)).

(** ** datetime *)

(** A [datetime] is a count of microseconds; [timedelta(days=d)] is [d] days. *)
Definition datetime : Type := Z.

Definition timedelta (days : Z) : Z := days * 86400000000.

(** [datetime.now()] *)
Definition datetime_now : M datetime := fun w =>
  Returned (clock w (read w), mkWorld (tape w) (drawn w) (clock w) (S (read w))).

(** ** numpy.random *)

Module np_random.

(** [np.random.randint(low, high)]: an integer of [[low, high)], the
    upper bound excluded; [ValueError] when the range is empty. *)
Definition randint (low high : Z) : M Z :=
  if low <? high
  then raw ← next_draw; mret (low + Z.of_N raw mod (high - low))
  else raise (ValueError "low >= high").

(** Walk the cumulated weights: the first element whose cumulated
    weight exceeds the sample [u]. *)
Fixpoint pick_cdf {A : Type} (a : list A) (p : list Z) (u : Z) : option A :=
  match a, p with
  | x :: a', w :: p' => if u <? w then Some x else pick_cdf a' p' (u - w)
  | _, _ => None
  end.

(** [np.random.choice(a)] and [np.random.choice(a, p=p)].  Weights are
    given in hundredths ([p=[0.3, 0.7]] is [[30; 70]]); an element is
    drawn only if its weight is positive. *)
Definition choice {A : Type} (a : list A) (p : option (list Z)) : M A :=
  match a with
  | [] => raise (ValueError "'a' cannot be empty unless no samples are taken")
  | d :: _ =>
      match p with
      | None =>
          raw ← next_draw;
          mret (nth (N.to_nat (raw mod N.of_nat (length a))) a d)
      | Some p =>
          if negb (length p =? length a)%nat
          then raise (ValueError "'a' and 'p' must have same size")
          else if negb (forallb (fun w => 0 <=? w) p)
          then raise (ValueError "probabilities are not non-negative")
          else if negb (fold_right Z.add 0 p =? 100)
          then raise (ValueError "probabilities do not sum to 1")
          else
            raw ← next_draw;
            match pick_cdf a p (Z.of_N raw mod 100) with
            | Some x => mret x
            | None => raise (ValueError "probabilities do not sum to 1")
            end
      end
  end.

End np_random.

(** ** The rows and the frame *)

(** One row dict of [load_data], lines 35-51, with the keys of the source
    ([No-show] is spelt [No_show]). *)
Record Row : Type := mkRow {
  PatientId : string;
  AppointmentID : string;
  Gender : string;
  ScheduledDay : datetime;
  AppointmentDay : datetime;
  Age : Z;
  Neighbourhood : string;
  Scholarship : Z;
  Hipertension : Z;
  Diabetes : Z;
  Alcoholism : Z;
  Handcap : Z;
  SMS_received : Z;
  No_show : string;
  LeadDays : Z
}.

(** A [pandas.DataFrame] of such rows.  [pd.DataFrame([])] has no rows and
    no columns: it is [EmptyFrame].  A [Frame] carries the fifteen
    columns, also when it has no rows (a selection that keeps none). *)
Inductive DataFrame : Type :=
| EmptyFrame
| Frame (rows : list Row).

Module pd.

(** [len(df)] *)
Definition len (df : DataFrame) : Z :=
  match df with
  | EmptyFrame => 0
  | Frame rows => Z.of_nat (length rows)
  end.

(** [df[key]]: the column as a list, [KeyError] when the frame has no
    such column. *)
Definition getitem {A : Type} (key : string) (field : Row -> A)
    (df : DataFrame) : outcome (list A) :=
  match df with
  | EmptyFrame => Raised (KeyError key)
  | Frame rows => Returned (map field rows)
  end.

(** The rows at which a boolean mask is true, in the order of the rows. *)
Fixpoint select (rows : list Row) (mask : list bool) : list Row :=
  match rows, mask with
  | r :: rows', b :: mask' =>
      if b then r :: select rows' mask' else select rows' mask'
  | _, _ => []
  end.

(** [df[mask]] for a boolean series: the mask has to be as long as the
    frame. *)
Definition getitem_mask (df : DataFrame) (mask : list bool)
    : outcome DataFrame :=
  match df with
  | EmptyFrame =>
      match mask with
      | [] => Returned EmptyFrame
      | _ :: _ => Raised IndexingError
      end
  | Frame rows =>
      if (length mask =? length rows)%nat
      then Returned (Frame (select rows mask))
      else Raised IndexingError
  end.

(** [s == v], [s > v], [a & b], [a | b] on series *)
Definition eq_str (s : list string) (v : string) : list bool :=
  map (fun x => String.eqb x v) s.
Definition eq_int (s : list Z) (v : Z) : list bool :=
  map (fun x => x =? v) s.
Definition gt_int (s : list Z) (v : Z) : list bool :=
  map (fun x => v <? x) s.
Definition and_ (a b : list bool) : list bool := zip_with andb a b.
Definition or_ (a b : list bool) : list bool := zip_with orb a b.

(** [pd.DataFrame(data)] for a list of row dicts. *)
Definition DataFrame (data : list Row) : DataFrame :=
  match data with
  | [] => EmptyFrame
  | _ :: _ => Frame data
  end.
End pd.

(** ** 1. Data simulation: [load_data], lines 18-54 *)

(** Line 19.  The fifth name is RESIST-E-circumflex-NCIA; the accented
    capital is the code point 202. *)
Definition neighbourhoods : list string :=
  ["JARDIM DA PENHA"; "MATA DA PRAIA"; "PONTAL DE CAMBURI"; "JARDIM CAMBURI";
   "RESIST" +:+ String "202"%char "NCIA"].

(** [range(count)] *)
Definition range (count : Z) : list Z := map Z.of_nat (seq 0 (Z.to_nat count)).

(** [for x in xs: acc = body(x, acc)] *)
Fixpoint for_each {A S : Type} (xs : list A) (body : A -> S -> M S) (acc : S) : M S :=
  match xs with
  | [] => mret acc
  | x :: xs' => acc' ← body x acc; for_each xs' body acc'
  end.

(** The body of the loop, lines 23-51, in the order in which the source
    draws: the twelve draws and the clock reading of one row. *)
Definition load_data_row (i : Z) : M Row :=
  is_no_show ← np_random.choice ["Yes"; "No"] (Some [30; 70]);
  has_sms ← np_random.choice [0; 1] (Some [50; 50]);
  age ← np_random.randint 5 85;
  now ← datetime_now;
  back ← np_random.randint 1 30;
  let scheduled_date := now - timedelta back in
  lead_days ← np_random.randint 0 15;
  let appointment_date := scheduled_date + timedelta lead_days in
  diabetes ← np_random.choice [0; 1] (Some [90; 10]);
  hipertension ← np_random.choice [0; 1] (Some [80; 20]);
  gender ← np_random.choice ["F"; "M"] None;
  neighbourhood ← np_random.choice neighbourhoods None;
  scholarship ← np_random.choice [0; 1] (Some [90; 10]);
  alcoholism ← np_random.choice [0; 1] (Some [95; 5]);
  handcap ← np_random.choice [0; 1] (Some [98; 2]);
  mret {|
    PatientId := "P-" +:+ pretty (10000 + i);
    AppointmentID := "APT-" +:+ pretty (50000 + i);
    Gender := gender;
    ScheduledDay := scheduled_date;
    AppointmentDay := appointment_date;
    Age := age;
    Neighbourhood := neighbourhood;
    Scholarship := scholarship;
    Hipertension := hipertension;
    Diabetes := diabetes;
    Alcoholism := alcoholism;
    Handcap := handcap;
    SMS_received := has_sms;
    No_show := is_no_show;
    LeadDays := lead_days
  |}.

(** The body of [load_data(count)], as a call that is not served from
    the cache runs it.  The [st.cache_data] decorator of line 17 memoises
    the call: the decorated function is [load_data_cached] below. *)
Definition load_data (count : Z) : M DataFrame :=
  data ← for_each (range count)
           (fun i data => row ← load_data_row i; mret (data ++ [row])) [];
  mret (pd.DataFrame data).

(** Line 56: [df = load_data(500)] *)
Definition df : M DataFrame := load_data 500.

(** ** 3. Dashboard logic: the KPI block, lines 93-113 *)

(** [float(z)], rounded to nearest even *)
Definition float_of_int (z : Z) : float :=
  SF2Prim (binary_normalize prec emax z 0 false).

(** [a / b] on two [int]s: [ZeroDivisionError] when [b] is zero, else the
    float quotient (the binary64 division of the two converted operands,
    which is Python's correctly rounded quotient as long as both are below
    2^53). *)
Definition truediv (a b : Z) : outcome float :=
  if b =? 0 then Raised ZeroDivisionError
  else Returned (float_of_int a / float_of_int b)%float.

(** Line 93 *)
Definition total_apts (df : DataFrame) : Z := pd.len df.

(** Line 94: [df[df['No-show'] == 'Yes']] *)
Definition no_shows (df : DataFrame) : outcome DataFrame :=
  s ← pd.getitem "No-show" No_show df;
  pd.getitem_mask df (pd.eq_str s "Yes").

(** Line 95: [df[df['No-show'] == 'No']] *)
Definition shows (df : DataFrame) : outcome DataFrame :=
  s ← pd.getitem "No-show" No_show df;
  pd.getitem_mask df (pd.eq_str s "No").

(** Lines 93-96: [rate = (len(no_shows) / total_apts) * 100] *)
Definition rate (df : DataFrame) : outcome float :=
  let total := total_apts df in
  ns ← no_shows df;
  q ← truediv (pd.len ns) total;
  mret (q * float_of_int 100)%float.

(** Lines 99 and 100 *)
Definition sms_group (df : DataFrame) : outcome DataFrame :=
  s ← pd.getitem "SMS_received" SMS_received df;
  pd.getitem_mask df (pd.eq_int s 1).

Definition no_sms_group (df : DataFrame) : outcome DataFrame :=
  s ← pd.getitem "SMS_received" SMS_received df;
  pd.getitem_mask df (pd.eq_int s 0).

(** The expression of lines 102 and 103 on a group [g]:
    [(len(g[g['No-show'] == 'Yes']) / len(g)) * 100] *)
Definition group_rate (g : DataFrame) : outcome float :=
  s ← pd.getitem "No-show" No_show g;
  ns ← pd.getitem_mask g (pd.eq_str s "Yes");
  q ← truediv (pd.len ns) (pd.len g);
  mret (q * float_of_int 100)%float.

(** Line 102 *)
Definition sms_rate (df : DataFrame) : outcome float :=
  g ← sms_group df; group_rate g.

(** Line 103 *)
Definition no_sms_rate (df : DataFrame) : outcome float :=
  g ← no_sms_group df; group_rate g.

(** Line 104, after lines 102 and 103 in that order *)
Definition sms_impact (df : DataFrame) : outcome float :=
  s ← sms_rate df;
  n ← no_sms_rate df;
  mret (n - s)%float.

(** Line 113: [est_loss = len(no_shows) * 150] *)
Definition est_loss (df : DataFrame) : outcome Z :=
  ns ← no_shows df;
  mret (pd.len ns * 150).

(** Line 203: [df[(df['No-show'] == 'Yes') & (df['LeadDays'] > 5)]] *)
Definition high_risk (df : DataFrame) : outcome DataFrame :=
  a ← pd.getitem "No-show" No_show df;
  b ← pd.getitem "LeadDays" LeadDays df;
  pd.getitem_mask df (pd.and_ (pd.eq_str a "Yes") (pd.gt_int b 5)).

(** ** The search filter, lines 172-179 *)

(** The lower-case letter of a character, on the code points below 256:
    A-Z and the accented capitals 192-222 (the multiplication sign 215
    apart) move up by 32; every other character is its own. *)
Definition lower (c : ascii) : ascii :=
  let n := N_of_ascii c in
  if ((65 <=? n) && (n <=? 90) || (192 <=? n) && (n <=? 222) && negb (n =? 215))%N
  then ascii_of_N (n + 32)
  else c.

(** [Series.str.contains(pat, case=False)] keeps pandas' default
    [regex=True]: [pat] is compiled by [re] with [IGNORECASE] and each
    value is tested with [search].  The model covers the patterns made of
    ordinary characters and of the dot; a pattern that uses any other
    character of the regular-expression syntax is outside it ([None]). *)
Module re.

Inductive atom : Type :=
| Lit (c : ascii)   (* an ordinary character *)
| AnyChar.          (* [.]: any character except the newline *)

(** The characters with a meaning of their own in a pattern. *)
Definition special : list ascii := list_ascii_of_string "\^$.|?*+()[]{}".

Fixpoint parse (p : list ascii) : option (list atom) :=
  match p with
  | [] => Some []
  | c :: p' =>
      if Ascii.eqb c "."
      then cons AnyChar <$> parse p'
      else if existsb (Ascii.eqb c) special
      then None
      else cons (Lit c) <$> parse p'
  end.

(** [re.compile(pattern, flags=re.IGNORECASE)] *)
Definition compile (pattern : string) : option (list atom) :=
  parse (list_ascii_of_string pattern).

(** One atom against one character, letter case ignored. *)
Definition atom_matches (a : atom) (x : ascii) : bool :=
  match a with
  | Lit c => Ascii.eqb (lower x) (lower c)
  | AnyChar => negb (Ascii.eqb x "010")
  end.

(** The atoms match a prefix of the subject. *)
Fixpoint match_here (p : list atom) (s : list ascii) : bool :=
  match p, s with
  | [], _ => true
  | a :: p', x :: s' => atom_matches a x && match_here p' s'
  | _ :: _, [] => false
  end.

(** [regex.search(s) is not None]: a match at some offset. *)
Fixpoint search (p : list atom) (s : list ascii) : bool :=
  match_here p s ||
  match s with
  | [] => false
  | _ :: s' => search p s'
  end.

End re.

(** [s.str.contains(pat, case=False)] on a series of strings *)
Definition str_contains (s : list string) (pat : string) : option (list bool) :=
  regex ← re.compile pat;
  Some (map (fun x => re.search regex (list_ascii_of_string x)) s).

(** Lines 174-179: the frame shown for a search term.  [None] only for a
    term outside the modelled patterns. *)
Definition display_df (search_term : string) (df : DataFrame)
    : option (outcome DataFrame) :=
  let display_df := df in
  if String.eqb search_term ""
  then Some (Returned display_df)
  else
    match pd.getitem "PatientId" PatientId display_df with
    | Raised e => Some (Raised e)
    | Returned ids =>
        a ← str_contains ids search_term;
        match pd.getitem "Neighbourhood" Neighbourhood display_df with
        | Raised e => Some (Raised e)
        | Returned names =>
            b ← str_contains names search_term;
            Some (pd.getitem_mask display_df (pd.or_ a b))
        end
    end.

(** ** What the specification calls things *)

(** A row is a no-show. *)
Definition row_is_no_show (r : Row) : bool := String.eqb (No_show r) "Yes".

(** [count(noShow=Yes)] *)
Definition count_no_show (rows : list Row) : Z :=
  Z.of_nat (count_occ bool_dec (map row_is_no_show rows) true).

(** [term] is a substring of [s], letter case ignored: some run of
    consecutive characters of [s] reads as [term] once both are put in
    lower case. *)
Definition contains_ci (term s : string) : Prop :=
  exists pre mid post : list ascii,
    list_ascii_of_string s = pre ++ mid ++ post /\
    map lower mid = map lower (list_ascii_of_string term).

(** A term without any character of the regular-expression syntax. *)
Definition plain_term (term : string) : Prop :=
  Forall (fun c => c ∉ re.special) (list_ascii_of_string term).

(** A world for running examples: every raw draw is [k], the clock
    stands at [t]. *)
Definition const_world (k : N) (t : Z) : World :=
  mkWorld (fun _ => k) 0 (fun _ => t) 0.

(** A row for running examples. *)
Definition sample_row (id : Z) (sms : Z) (no_show : string) (lead : Z) : Row :=
  {| PatientId := "P-" +:+ pretty (10000 + id);
     AppointmentID := "APT-" +:+ pretty (50000 + id);
     Gender := "F"; ScheduledDay := 0; AppointmentDay := timedelta lead;
     Age := 40; Neighbourhood := "JARDIM DA PENHA"; Scholarship := 0;
     Hipertension := 0; Diabetes := 0; Alcoholism := 0; Handcap := 0;
     SMS_received := sms; No_show := no_show; LeadDays := lead |}.

(** The rows of a frame, in order. *)
Definition records (df : DataFrame) : list Row :=
  match df with
  | EmptyFrame => []
  | Frame rows => rows
  end.

(** The computation [m], started in the world [w], returns a value that
    satisfies [P] (and does not raise). *)
Definition returns {A : Type} (m : M A) (w : World) (P : A -> Prop) : Prop :=
  exists a w', m w = Returned (a, w') /\ P a.

(** What [load_data] promises of the row built at index [i]. *)
Record row_ok (i : Z) (r : Row) : Prop := mk_row_ok {
  ok_patient : PatientId r = "P-" +:+ pretty (10000 + i);
  ok_appointment : AppointmentID r = "APT-" +:+ pretty (50000 + i);
  ok_day : AppointmentDay r = ScheduledDay r + timedelta (LeadDays r);
  ok_lead : 0 <= LeadDays r <= 14;
  ok_age : 5 <= Age r <= 84
}.

(** ** Further parts of the dashboard page *)

(** [s.value_counts()]: how often each value of the series occurs; a
    value that does not occur has no entry.  The entries are kept as a
    finite map: the order in which pandas lists them is not modelled. *)
Definition value_counts (s : list string) : gmap string Z :=
  foldr (fun x m => <[x := default 0 (m !! x) + 1]> m) ∅ s.

(** Line 154: [gender_counts = no_shows['Gender'].value_counts()] *)
Definition gender_counts (df : DataFrame) : outcome (gmap string Z) :=
  ns ← no_shows df;
  g ← pd.getitem "Gender" Gender ns;
  mret (value_counts g).

(** [df.head(n)] *)
Definition df_head (n : nat) (df : DataFrame) : DataFrame :=
  match df with
  | EmptyFrame => EmptyFrame
  | Frame rows => Frame (take n rows)
  end.

(** Lines 207-213: the [key] of the call button of each card, one card
    per row of [high_risk.head(5)], in the order of [iterrows]. *)
Definition call_button_keys (df : DataFrame) : outcome (list string) :=
  hr ← high_risk df;
  mret (map (fun row => "btn_" +:+ PatientId row) (records (df_head 5 hr))).

(** Line 17: [@st.cache_data].  The decorated function keeps the frames
    it has returned, by argument: a call whose argument is in the cache
    returns the cached frame and runs nothing; any other call runs the
    body and, when the body returns, keeps its frame (a body that raises
    leaves the cache as it was). *)
Definition st_cache_data (f : Z -> M DataFrame) (count : Z)
    (cache : gmap Z DataFrame) : M (DataFrame * gmap Z DataFrame) :=
  match cache !! count with
  | Some frame => mret (frame, cache)
  | None => frame ← f count; mret (frame, <[count := frame]> cache)
  end.

(** Lines 17-18: [load_data] as the rest of the script calls it. *)
Definition load_data_cached : Z -> gmap Z DataFrame -> M (DataFrame * gmap Z DataFrame) :=
  st_cache_data load_data.

(** ** Following the world through a run *)

(** The world after [draws] more draws and [reads] more clock readings. *)
Definition advance (draws reads : nat) (w : World) : World :=
  mkWorld (tape w) (draws + drawn w) (clock w) (reads + read w).

(** The [k]-th draw still to come in [w]. *)
Definition draw (w : World) (k : nat) : Z := Z.of_N (tape w (k + drawn w)).

(** The computation [m], started in [w], returns a value and a world
    that satisfy [P] (and does not raise). *)
Definition runs {A : Type} (m : M A) (w : World) (P : A -> World -> Prop) : Prop :=
  exists a w', m w = Returned (a, w') /\ P a w'.

(** How the row built in the world [w] reads the draws to come and the
    clock: the first draw decides the outcome, the second the reminder,
    the third the age, the fourth how far back the booking lies, the fifth
    the lead time. *)
Record row_drawn (w : World) (r : Row) : Prop := mk_row_drawn {
  drawn_no_show :
    np_random.pick_cdf ["Yes"; "No"] [30; 70] (draw w 0 mod 100) = Some (No_show r);
  drawn_sms :
    np_random.pick_cdf [0; 1] [50; 50] (draw w 1 mod 100) = Some (SMS_received r);
  drawn_age : Age r = 5 + draw w 2 mod 80;
  drawn_scheduled :
    ScheduledDay r = clock w (read w) - timedelta (1 + draw w 3 mod 29);
  drawn_lead : LeadDays r = draw w 4 mod 15
}.

(** The values the drawn fields of a generated row can take. *)
Record row_domains (r : Row) : Prop := mk_row_domains {
  dom_no_show : No_show r = "Yes" \/ No_show r = "No";
  dom_sms : SMS_received r = 0 \/ SMS_received r = 1;
  dom_gender : Gender r = "F" \/ Gender r = "M";
  dom_neighbourhood : Neighbourhood r ∈ neighbourhoods;
  dom_scholarship : Scholarship r = 0 \/ Scholarship r = 1;
  dom_hipertension : Hipertension r = 0 \/ Hipertension r = 1;
  dom_diabetes : Diabetes r = 0 \/ Diabetes r = 1;
  dom_alcoholism : Alcoholism r = 0 \/ Alcoholism r = 1;
  dom_handcap : Handcap r = 0 \/ Handcap r = 1
}.

(** The row filter a compiled search term stands for. *)
Definition shown_by (regex : list re.atom) (r : Row) : bool :=
  re.search regex (list_ascii_of_string (PatientId r)) ||
  re.search regex (list_ascii_of_string (Neighbourhood r)).

(** * Properties *)

(** ** The world monad *)

Lemma returns_ret {A : Type} (a : A) (w : World) (P : A -> Prop) :
  P a -> returns (mret a) w P.
Proof. intros HP. exists a, w. split; [reflexivity | exact HP]. Qed.

Lemma returns_bind {A B : Type} (m : M A) (f : A -> M B) (w : World)
    (P : A -> Prop) (Q : B -> Prop) :
  returns m w P ->
  (forall a w', P a -> returns (f a) w' Q) ->
  returns (m ≫= f) w Q.
Proof.
  intros (a & w1 & Hm & HP) Hf.
  destruct (Hf a w1 HP) as (b & w2 & Hfa & HQ).
  exists b, w2. split; [| exact HQ].
  unfold mbind, M_bind. rewrite Hm. exact Hfa.
Qed.

Lemma returns_weaken {A : Type} (m : M A) (w : World) (P Q : A -> Prop) :
  returns m w P -> (forall a, P a -> Q a) -> returns m w Q.
Proof. intros (a & w' & Hm & HP) HPQ. exists a, w'. auto. Qed.

Lemma next_draw_returns (w : World) : returns next_draw w (fun _ => True).
Proof. eexists _, _. split; [reflexivity | exact I]. Qed.

Lemma datetime_now_returns (w : World) : returns datetime_now w (fun _ => True).
Proof. eexists _, _. split; [reflexivity | exact I]. Qed.

(** ** numpy.random *)

(** [randint] stays within its bounds, the upper one excluded. *)
Lemma randint_returns (low high : Z) (w : World) :
  low < high ->
  returns (np_random.randint low high) w (fun v => low <= v < high).
Proof.
  intros Hlt. unfold np_random.randint.
  destruct (Z.ltb_spec low high) as [_ | Hge]; [| lia].
  eapply returns_bind; [apply next_draw_returns |].
  intros raw w' _. apply returns_ret.
  pose proof (Z.mod_pos_bound (Z.of_N raw) (high - low)). lia.
Qed.

Lemma pick_cdf_some {A : Type} (a : list A) :
  forall (p : list Z) (u : Z),
    length p = length a -> 0 <= u < fold_right Z.add 0 p ->
    exists x, np_random.pick_cdf a p u = Some x /\ x ∈ a.
Proof.
  induction a as [| x a IH]; intros [| wt p] u Hlen Hu; simpl in *; try lia.
  destruct (Z.ltb_spec u wt) as [Hlt | Hge].
  - exists x. split; [reflexivity | left].
  - destruct (IH p (u - wt)) as (y & Hy & Hin); [lia | lia |].
    exists y. split; [exact Hy | right; exact Hin].
Qed.

(** A uniform [choice] returns one of the elements. *)
Lemma choice_uniform_returns {A : Type} (a : list A) (w : World) :
  a <> [] -> returns (np_random.choice a None) w (fun x => x ∈ a).
Proof.
  destruct a as [| d a']; [congruence | intros _].
  unfold np_random.choice.
  eapply returns_bind; [apply next_draw_returns |].
  intros raw w' _. apply returns_ret.
  apply list_elem_of_In, nth_In.
  pose proof (N.mod_upper_bound raw (N.of_nat (length (d :: a')))) as Hb.
  simpl length in *. lia.
Qed.

(** A weighted [choice] with well-formed weights returns one of the
    elements. *)
Lemma choice_weighted_returns {A : Type} (a : list A) (p : list Z) (w : World) :
  a <> [] ->
  length p = length a ->
  forallb (fun wt => 0 <=? wt) p = true ->
  fold_right Z.add 0 p = 100 ->
  returns (np_random.choice a (Some p)) w (fun x => x ∈ a).
Proof.
  destruct a as [| d a']; [congruence | intros _ Hlen Hpos Hsum].
  unfold np_random.choice.
  rewrite Hlen, Nat.eqb_refl, Hpos, Hsum, Z.eqb_refl. simpl negb. cbv iota.
  eapply returns_bind; [apply next_draw_returns |].
  intros raw w' _.
  destruct (pick_cdf_some (d :: a') p (Z.of_N raw mod 100)) as (x & Hx & Hin).
  - exact Hlen.
  - rewrite Hsum. apply Z.mod_pos_bound. lia.
  - rewrite Hx. apply returns_ret. exact Hin.
Qed.

(** ** The generator *)

Ltac weighted_choice :=
  eapply returns_bind;
  [ apply choice_weighted_returns; [discriminate | reflexivity | reflexivity | reflexivity]
  | intros ? ? _ ].

Ltac uniform_choice :=
  eapply returns_bind;
  [ apply choice_uniform_returns; discriminate | intros ? ? _ ].

(** One turn of the loop returns a row that keeps the promises of
    [row_ok], whatever is drawn and whatever the clock reads. *)
Lemma load_data_row_returns (i : Z) (w : World) :
  returns (load_data_row i) w (row_ok i).
Proof.
  unfold load_data_row.
  do 2 weighted_choice.
  eapply returns_bind; [apply (randint_returns 5 85); lia |].
  intros age w3 Hage. simpl in Hage.
  eapply returns_bind; [apply datetime_now_returns |].
  intros now w4 _.
  eapply returns_bind; [apply (randint_returns 1 30); lia |].
  intros back w5 _.
  eapply returns_bind; [apply (randint_returns 0 15); lia |].
  intros lead_days w6 Hlead. simpl in Hlead.
  do 2 weighted_choice.
  do 2 uniform_choice.
  do 3 weighted_choice.
  apply returns_ret.
  constructor; simpl; first [reflexivity | lia].
Qed.

(** The loop appends one such row per index, in the order of the indices. *)
Lemma load_data_loop_returns (xs : list Z) :
  forall (acc : list Row) (w : World),
    returns
      (for_each xs (fun i data => row ← load_data_row i; mret (data ++ [row])) acc)
      w
      (fun data => exists new, data = acc ++ new /\ Forall2 row_ok xs new).
Proof.
  induction xs as [| i xs IH]; intros acc w; simpl.
  - apply returns_ret. exists []. split; [by rewrite app_nil_r | constructor].
  - apply returns_bind
      with (P := fun data => exists row, data = acc ++ [row] /\ row_ok i row).
    + eapply returns_bind; [apply load_data_row_returns |].
      intros row w1 Hrow. apply returns_ret. by exists row.
    + intros data w1 (row & -> & Hrow).
      eapply returns_weaken; [apply IH |].
      intros out (new & -> & Hnew).
      exists (row :: new). split; [by rewrite <- app_assoc | by constructor].
Qed.

Lemma length_range (count : Z) : length (range count) = Z.to_nat count.
Proof. unfold range. by rewrite length_map, length_seq. Qed.

Lemma lookup_range (count : Z) (k : nat) (i : Z) :
  range count !! k = Some i -> i = Z.of_nat k.
Proof.
  unfold range. rewrite list_lookup_fmap.
  destruct (seq 0 (Z.to_nat count) !! k) as [n |] eqn:Hk; [| discriminate].
  apply lookup_seq in Hk as [-> _]. simpl. intros [= <-]. reflexivity.
Qed.

(** [load_data] always returns; the frame holds one row per index of
    [range(count)], each keeping the promises of [row_ok]. *)
Lemma load_data_returns (count : Z) (w : World) :
  returns (load_data count) w
    (fun df => exists data,
       df = pd.DataFrame data /\ records df = data /\
       Forall2 row_ok (range count) data).
Proof.
  unfold load_data.
  eapply returns_bind; [apply load_data_loop_returns |].
  intros data w1 (new & -> & Hnew). simpl in *.
  apply returns_ret. exists new. split; [reflexivity |].
  split; [by destruct new | exact Hnew].
Qed.

Lemma prefixed_pretty_NoDup (prefix : string) (base : Z) (xs : list Z) (rows : list Row)
    (field : Row -> string) :
  NoDup xs ->
  Forall2 (fun i r => field r = prefix +:+ pretty (base + i)) xs rows ->
  NoDup (map field rows).
Proof.
  intros Hnd Hall.
  assert (map field rows = map (fun i => prefix +:+ pretty (base + i)) xs) as ->.
  { induction Hall as [| i r xs rows Hir _ IH]; simpl; [reflexivity |].
    inversion Hnd; subst. by rewrite Hir, IH. }
  apply NoDup_fmap_2; [| exact Hnd].
  intros i j Hij. apply (inj (String.app prefix)) in Hij.
  apply (inj pretty) in Hij. lia.
Qed.

Lemma range_NoDup (count : Z) : NoDup (range count).
Proof.
  unfold range. apply NoDup_fmap_2; [intros x y; apply Nat2Z.inj | apply NoDup_seq].
Qed.

Lemma generated_row_ok (count : Z) (data : list Row) (k : nat) (r : Row) :
  Forall2 row_ok (range count) data -> data !! k = Some r -> row_ok (Z.of_nat k) r.
Proof.
  intros Hall Hk.
  destruct (Forall2_lookup_r _ _ _ _ _ Hall Hk) as (i & Hi & Hok).
  apply lookup_range in Hi as ->. exact Hok.
Qed.

Lemma generated_member_ok (count : Z) (data : list Row) (r : Row) :
  Forall2 row_ok (range count) data -> r ∈ data -> exists i, row_ok i r.
Proof.
  intros Hall [k Hk]%list_elem_of_lookup.
  exists (Z.of_nat k). by eapply generated_row_ok.
Qed.

Example pretty_like_str : pretty (10000 + 42) = "10042" /\ pretty (50000 + 499) = "50499".
Proof. split; reflexivity. Qed.

(** C2. For every positive [count], [load_data(count)] returns a frame of
    exactly [count] rows: [len(df) == count]. *)
Theorem load_data_length (count : Z) (w : World) :
  0 < count ->
  exists rows w',
    load_data count w = Returned (Frame rows, w') /\
    pd.len (Frame rows) = count /\
    Z.of_nat (length rows) = count.
Proof.
  intros Hpos.
  destruct (load_data_returns count w) as (df & w' & Hrun & data & Hdf & _ & Hall).
  apply Forall2_length in Hall. rewrite length_range in Hall.
  destruct data as [| r data]; simpl in Hall; [lia |].
  exists (r :: data), w'. subst df. split; [exact Hrun |].
  simpl pd.len. simpl length. lia.
Qed.

Lemma load_data_length_witness :
  0 < 3 /\
  exists rows w',
    load_data 3 (const_world 7 1000) = Returned (Frame rows, w') /\
    pd.len (Frame rows) = 3 /\
    Z.of_nat (length rows) = 3.
Proof. split; [lia | apply (load_data_length 3 (const_world 7 1000)); lia]. Defined.

(** C3. Every row of a generated frame has its appointment day equal to
    its scheduled day plus its lead days, and its lead days within
    [[0, 14]]. *)
Theorem load_data_appointment_day (count : Z) (w : World) :
  exists df w',
    load_data count w = Returned (df, w') /\
    forall r, r ∈ records df ->
      AppointmentDay r = ScheduledDay r + timedelta (LeadDays r) /\
      0 <= LeadDays r <= 14.
Proof.
  destruct (load_data_returns count w) as (df & w' & Hrun & data & _ & Hrec & Hall).
  exists df, w'. split; [exact Hrun |].
  intros r Hr. rewrite Hrec in Hr.
  destruct (generated_member_ok _ _ _ Hall Hr) as (i & Hok).
  split; [apply (ok_day _ _ Hok) | apply (ok_lead _ _ Hok)].
Qed.

(** C4. In a generated frame the row at index [i] has the patient
    identifier P-(10000 + i) and the appointment identifier
    APT-(50000 + i); no two rows share a patient identifier or an
    appointment identifier. *)
Theorem load_data_identifiers (count : Z) (w : World) :
  exists df w',
    load_data count w = Returned (df, w') /\
    (forall (i : nat) (r : Row), records df !! i = Some r ->
       PatientId r = "P-" +:+ pretty (10000 + Z.of_nat i) /\
       AppointmentID r = "APT-" +:+ pretty (50000 + Z.of_nat i)) /\
    NoDup (map PatientId (records df)) /\
    NoDup (map AppointmentID (records df)).
Proof.
  destruct (load_data_returns count w) as (df & w' & Hrun & data & _ & Hrec & Hall).
  exists df, w'. split; [exact Hrun |]. rewrite Hrec. split; [| split].
  - intros i r Hi. pose proof (generated_row_ok _ _ _ _ Hall Hi) as Hok.
    split; [apply (ok_patient _ _ Hok) | apply (ok_appointment _ _ Hok)].
  - apply (prefixed_pretty_NoDup "P-" 10000 (range count)); [apply range_NoDup |].
    eapply Forall2_impl; [exact Hall |]. intros i r Hok. apply (ok_patient _ _ Hok).
  - apply (prefixed_pretty_NoDup "APT-" 50000 (range count)); [apply range_NoDup |].
    eapply Forall2_impl; [exact Hall |]. intros i r Hok. apply (ok_appointment _ _ Hok).
Qed.

(** C10. Every row of a generated frame has its age within [[5, 84]]:
    the draw excludes its upper bound, so 85 is never produced. *)
Theorem load_data_age (count : Z) (w : World) :
  exists df w',
    load_data count w = Returned (df, w') /\
    forall r, r ∈ records df -> 5 <= Age r <= 84 /\ Age r <> 85.
Proof.
  destruct (load_data_returns count w) as (df & w' & Hrun & data & _ & Hrec & Hall).
  exists df, w'. split; [exact Hrun |].
  intros r Hr. rewrite Hrec in Hr.
  destruct (generated_member_ok _ _ _ Hall Hr) as (i & Hok).
  pose proof (ok_age _ _ Hok). lia.
Qed.

(** Both ends of the age range are drawn in some run. *)
Example load_data_age_ends :
  (exists rows w',
     load_data 1 (const_world 0 0) = Returned (Frame rows, w') /\ map Age rows = [5]) /\
  (exists rows w',
     load_data 1 (const_world 79 0) = Returned (Frame rows, w') /\ map Age rows = [84]).
Proof. split; eexists _, _; (split; [vm_compute; reflexivity | reflexivity]). Qed.

(** Line 56: the frame of the session has 500 rows. *)
Lemma df_has_500_rows (w : World) :
  returns df w (fun frame => pd.len frame = 500).
Proof.
  unfold df. eapply returns_weaken; [apply load_data_returns |].
  intros frame (data & -> & _ & Hall).
  apply Forall2_length in Hall. rewrite length_range in Hall.
  destruct data; simpl in *; lia.
Qed.

Lemma range_nonpositive (count : Z) : count <= 0 -> range count = [].
Proof. intros Hle. unfold range. by replace (Z.to_nat count) with 0%nat by lia. Qed.

(** C8, as the code has it. For every [count <= 0], [load_data(count)]
    raises nothing: the loop body never runs and the frame returned has
    no rows (and no columns); no draw is consumed. *)
Theorem load_data_nonpositive (count : Z) (w : World) :
  count <= 0 -> load_data count w = Returned (EmptyFrame, w).
Proof.
  intros Hle. unfold load_data. rewrite (range_nonpositive count Hle). reflexivity.
Qed.

Lemma load_data_nonpositive_witness :
  -2 <= 0 /\ load_data (-2) (const_world 7 1000) = Returned (EmptyFrame, const_world 7 1000).
Proof. split; [lia | apply (load_data_nonpositive (-2) (const_world 7 1000)); lia]. Defined.

(** C8, as the specification states it, fails: [load_data(0)] is not
    rejected, it returns the empty frame. *)
Lemma load_data_zero_not_rejected :
  load_data 0 (const_world 0 0) = Returned (EmptyFrame, const_world 0 0) /\
  forall e, load_data 0 (const_world 0 0) <> Raised e.
Proof. split; [reflexivity | discriminate]. Qed.

(** ** Selecting rows by a mask *)

Lemma select_map (f : Row -> bool) (rows : list Row) :
  pd.select rows (map f rows) = List.filter f rows.
Proof.
  induction rows as [| r rows IH]; simpl; [reflexivity |].
  rewrite IH. reflexivity.
Qed.

Lemma getitem_mask_map (f : Row -> bool) (rows : list Row) :
  pd.getitem_mask (Frame rows) (map f rows) = Returned (Frame (List.filter f rows)).
Proof.
  unfold pd.getitem_mask. rewrite length_map, Nat.eqb_refl, select_map. reflexivity.
Qed.

Lemma and_map (f g : Row -> bool) (rows : list Row) :
  pd.and_ (map f rows) (map g rows) = map (fun r => f r && g r) rows.
Proof. unfold pd.and_. induction rows; simpl; congruence. Qed.

Lemma or_map (f g : Row -> bool) (rows : list Row) :
  pd.or_ (map f rows) (map g rows) = map (fun r => f r || g r) rows.
Proof. unfold pd.or_. induction rows; simpl; congruence. Qed.

Lemma filter_sublist (f : Row -> bool) (rows : list Row) :
  sublist (List.filter f rows) rows.
Proof.
  induction rows as [| r rows IH]; simpl; [constructor |].
  destruct (f r); by constructor.
Qed.

Lemma filter_none (f : Row -> bool) (rows : list Row) :
  (forall r, r ∈ rows -> f r = false) -> List.filter f rows = [].
Proof.
  induction rows as [| r rows IH]; intros Hall; simpl; [reflexivity |].
  rewrite (Hall r) by left. apply IH. intros r' Hr'. apply Hall. by right.
Qed.

Lemma eq_str_no_show (rows : list Row) :
  pd.eq_str (map No_show rows) "Yes" = map row_is_no_show rows.
Proof. unfold pd.eq_str. by rewrite map_map. Qed.

Lemma no_shows_frame (rows : list Row) :
  no_shows (Frame rows) = Returned (Frame (List.filter row_is_no_show rows)).
Proof.
  unfold no_shows, pd.getitem. cbn [mbind outcome_bind].
  by rewrite eq_str_no_show, getitem_mask_map.
Qed.

Lemma length_no_shows (rows : list Row) :
  Z.of_nat (length (List.filter row_is_no_show rows)) = count_no_show rows.
Proof.
  unfold count_no_show. f_equal.
  induction rows as [| r rows IH]; simpl; [reflexivity |].
  destruct (row_is_no_show r); simpl; by rewrite IH.
Qed.


(** ** The KPI block *)

Lemma group_rate_frame (rows : list Row) :
  group_rate (Frame rows) =
  q ← truediv (count_no_show rows) (Z.of_nat (length rows));
  mret (q * float_of_int 100)%float.
Proof.
  unfold group_rate, pd.getitem. cbn [mbind outcome_bind].
  rewrite eq_str_no_show, getitem_mask_map. cbn [mbind outcome_bind pd.len].
  by rewrite length_no_shows.
Qed.

Lemma rate_frame (rows : list Row) :
  rate (Frame rows) =
  q ← truediv (count_no_show rows) (Z.of_nat (length rows));
  mret (q * float_of_int 100)%float.
Proof.
  unfold rate, total_apts. rewrite no_shows_frame. cbn [mbind outcome_bind pd.len].
  by rewrite length_no_shows.
Qed.

Lemma sms_group_frame (rows : list Row) :
  sms_group (Frame rows) =
  Returned (Frame (List.filter (fun r => SMS_received r =? 1) rows)).
Proof.
  unfold sms_group. unfold pd.getitem, pd.eq_int. cbn [mbind outcome_bind].
  rewrite map_map. apply (getitem_mask_map (fun r => SMS_received r =? 1)).
Qed.

Lemma no_sms_group_frame (rows : list Row) :
  no_sms_group (Frame rows) =
  Returned (Frame (List.filter (fun r => SMS_received r =? 0) rows)).
Proof.
  unfold no_sms_group. unfold pd.getitem, pd.eq_int. cbn [mbind outcome_bind].
  rewrite map_map. apply (getitem_mask_map (fun r => SMS_received r =? 0)).
Qed.

(** On the frame without columns that [pd.DataFrame([])] builds, line 94
    raises before anything is divided. *)
Lemma rate_without_columns :
  rate EmptyFrame = Raised (KeyError "No-show") /\
  sms_rate EmptyFrame = Raised (KeyError "SMS_received") /\
  est_loss EmptyFrame = Raised (KeyError "No-show") /\
  high_risk EmptyFrame = Raised (KeyError "No-show").
Proof. repeat split; reflexivity. Qed.

(** The frame of [load_data(0)] is that frame: the KPI block run on it
    stops at line 94. *)
Example rate_after_load_data_zero :
  match load_data 0 (const_world 0 0) with
  | Returned (frame, _) => rate frame
  | Raised e => Raised e
  end = Raised (KeyError "No-show").
Proof. reflexivity. Qed.

(** C1, as the code has it. On a cohort that has its columns but no
    rows [rate] raises [ZeroDivisionError]; the rate of a group selected by
    a predicate that no row satisfies raises [ZeroDivisionError] as well,
    in particular [no_sms_rate] when no row has [SMS_received == 0] and
    [sms_rate] when no row has [SMS_received == 1]; on the cohort without
    columns that the generator builds when it builds no row, [rate] raises
    [KeyError] at line 94, before anything is divided.  No float (so no
    NaN, no infinity) is returned in any of these cases. *)
Theorem rate_of_empty_raises :
  rate (Frame []) = Raised ZeroDivisionError /\
  (forall (rows : list Row) (sel : Row -> bool),
     (forall r, r ∈ rows -> sel r = false) ->
     exists g,
       pd.getitem_mask (Frame rows) (map sel rows) = Returned g /\
       pd.len g = 0 /\
       group_rate g = Raised ZeroDivisionError) /\
  (forall rows : list Row,
     (forall r, r ∈ rows -> SMS_received r <> 0) ->
     no_sms_rate (Frame rows) = Raised ZeroDivisionError) /\
  (forall rows : list Row,
     (forall r, r ∈ rows -> SMS_received r <> 1) ->
     sms_rate (Frame rows) = Raised ZeroDivisionError) /\
  rate (pd.DataFrame []) = Raised (KeyError "No-show").
Proof.
  split; [reflexivity |]. split; [| split; [| split]].
  - intros rows sel Hnone. exists (Frame []).
    rewrite getitem_mask_map, (filter_none sel rows Hnone).
    repeat split; reflexivity.
  - intros rows Hnone. unfold no_sms_rate. rewrite no_sms_group_frame.
    rewrite filter_none; [reflexivity |].
    intros r Hr. apply Z.eqb_neq. by apply Hnone.
  - intros rows Hnone. unfold sms_rate. rewrite sms_group_frame.
    rewrite filter_none; [reflexivity |].
    intros r Hr. apply Z.eqb_neq. by apply Hnone.
  - reflexivity.
Qed.

(** C1, as the specification states it, fails: the empty cohort that
    [load_data(0)] returns has no column, and [rate] on it raises
    [KeyError], not [ZeroDivisionError]. *)
Lemma rate_of_generated_empty_cohort :
  load_data 0 (const_world 0 0) = Returned (EmptyFrame, const_world 0 0) /\
  pd.len EmptyFrame = 0 /\
  rate EmptyFrame = Raised (KeyError "No-show") /\
  rate EmptyFrame <> Raised ZeroDivisionError.
Proof. repeat split; discriminate. Qed.

Lemma rate_of_empty_raises_witness :
  (forall r, r ∈ [sample_row 0 1 "Yes" 6; sample_row 1 1 "No" 2] -> SMS_received r <> 0) /\
  no_sms_rate (Frame [sample_row 0 1 "Yes" 6; sample_row 1 1 "No" 2])
    = Raised ZeroDivisionError.
Proof.
  assert (forall r, r ∈ [sample_row 0 1 "Yes" 6; sample_row 1 1 "No" 2] ->
                    SMS_received r <> 0) as Hnone.
  { intros r Hr. apply elem_of_cons in Hr as [-> | Hr]; [discriminate |].
    apply elem_of_cons in Hr as [-> | Hr]; [discriminate |].
    by apply elem_of_nil in Hr. }
  split; [exact Hnone |].
  exact (proj1 (proj2 (proj2 rate_of_empty_raises)) _ Hnone).
Defined.

Lemma count_no_show_Permutation (rows rows' : list Row) :
  Permutation rows rows' -> count_no_show rows = count_no_show rows'.
Proof.
  intros Hperm. unfold count_no_show. f_equal.
  apply Permutation_count_occ. by apply Permutation_map.
Qed.

(** C9. The no-show rate of a non-empty cohort is a float that does not
    depend on the order of the rows: a permutation of the cohort has the
    same rate. *)
Theorem rate_permutation (rows rows' : list Row) :
  rows <> [] ->
  Permutation rows rows' ->
  exists v, rate (Frame rows) = Returned v /\ rate (Frame rows') = Returned v.
Proof.
  intros Hne Hperm. rewrite !rate_frame.
  rewrite <- (count_no_show_Permutation _ _ Hperm).
  rewrite <- (Permutation_length Hperm).
  unfold truediv.
  destruct (Z.eqb_spec (Z.of_nat (length rows)) 0) as [Hz | _].
  - destruct rows; [congruence | simpl in Hz; lia].
  - eexists. split; reflexivity.
Qed.

Lemma rate_permutation_witness :
  [sample_row 0 1 "Yes" 6; sample_row 1 0 "No" 2] <> [] /\
  Permutation [sample_row 0 1 "Yes" 6; sample_row 1 0 "No" 2]
              [sample_row 1 0 "No" 2; sample_row 0 1 "Yes" 6] /\
  exists v,
    rate (Frame [sample_row 0 1 "Yes" 6; sample_row 1 0 "No" 2]) = Returned v /\
    rate (Frame [sample_row 1 0 "No" 2; sample_row 0 1 "Yes" 6]) = Returned v.
Proof.
  split; [discriminate |]. split; [apply perm_swap |].
  apply rate_permutation; [discriminate | apply perm_swap].
Defined.

(** Three no-shows among ten rows: a rate of 30.0. *)
Example rate_three_of_ten :
  rate (Frame (map (fun i => sample_row i 1 "Yes" 6) [0; 1; 2] ++
               map (fun i => sample_row i 1 "No" 2) [3; 4; 5; 6; 7; 8; 9]))
  = Returned 30%float.
Proof. vm_compute. reflexivity. Qed.

(** C7, as the code has it. For every cohort the estimated revenue loss
    is the number of no-show rows times 150, the per-visit value fixed in
    the source; with four no-show rows it is 600. *)
Theorem est_loss_fixed_value (rows : list Row) :
  est_loss (Frame rows) = Returned (count_no_show rows * 150) /\
  (count_no_show rows = 4 -> est_loss (Frame rows) = Returned 600).
Proof.
  assert (est_loss (Frame rows) = Returned (count_no_show rows * 150)) as Heq.
  { unfold est_loss. rewrite no_shows_frame. cbn [mbind outcome_bind pd.len].
    by rewrite length_no_shows. }
  split; [exact Heq |]. intros Hfour. rewrite Heq, Hfour. reflexivity.
Qed.

Lemma est_loss_fixed_value_witness :
  count_no_show (map (fun i => sample_row i 1 "Yes" 6) [0; 1; 2; 3] ++
                 [sample_row 4 0 "No" 1]) = 4 /\
  est_loss (Frame (map (fun i => sample_row i 1 "Yes" 6) [0; 1; 2; 3] ++
                   [sample_row 4 0 "No" 1])) = Returned 600.
Proof.
  split; [reflexivity |].
  apply (proj2 (est_loss_fixed_value
                  (map (fun i => sample_row i 1 "Yes" 6) [0; 1; 2; 3] ++
                   [sample_row 4 0 "No" 1]))).
  reflexivity.
Defined.

(** C7, as the specification states it, fails: the source has no unit
    value to vary.  With one no-show row and a unit value of 100 the
    estimate is 150, not 100. *)
Lemma est_loss_unit_value_100 :
  0 <= 100 /\
  count_no_show [sample_row 0 1 "Yes" 6] = 1 /\
  est_loss (Frame [sample_row 0 1 "Yes" 6]) = Returned 150 /\
  est_loss (Frame [sample_row 0 1 "Yes" 6])
    <> Returned (count_no_show [sample_row 0 1 "Yes" 6] * 100).
Proof. repeat split; [lia | discriminate]. Qed.

(** C5. On every cohort [high_risk] is the rows that are no-shows with
    more than 5 lead days, and only they: each of them is a row of the
    cohort, and they come in the order of the cohort. *)
Theorem high_risk_filter (rows : list Row) :
  exists out,
    high_risk (Frame rows) = Returned (Frame out) /\
    out = List.filter (fun r => String.eqb (No_show r) "Yes" && (5 <? LeadDays r)) rows /\
    (forall r, r ∈ out <-> r ∈ rows /\ No_show r = "Yes" /\ 5 < LeadDays r) /\
    sublist out rows.
Proof.
  eexists. split; [| split; [reflexivity | split]].
  - unfold high_risk, pd.getitem. cbn [mbind outcome_bind].
    unfold pd.eq_str, pd.gt_int. rewrite !map_map.
    rewrite (and_map (fun r => String.eqb (No_show r) "Yes") (fun r => 5 <? LeadDays r)).
    apply getitem_mask_map.
  - intros r. rewrite !list_elem_of_In, filter_In, andb_true_iff.
    rewrite String.eqb_eq, Z.ltb_lt. reflexivity.
  - apply filter_sublist.
Qed.

(** Ten rows, three of them no-shows with 6, 7 and 8 lead days: a queue
    of three. *)
Example high_risk_three_of_ten :
  (ns ← high_risk
          (Frame ([sample_row 0 1 "Yes" 6; sample_row 1 0 "No" 9; sample_row 2 1 "Yes" 7] ++
                  map (fun i => sample_row i 1 "No" 2) [3; 4; 5; 6; 7; 8] ++
                  [sample_row 9 0 "Yes" 8]));
   mret (map PatientId (records ns)))
  = Returned ["P-10000"; "P-10002"; "P-10009"].
Proof. vm_compute. reflexivity. Qed.

(** ** The search filter *)

(** A term of ordinary characters compiles to the sequence of its
    characters. *)
Lemma parse_plain (p : list ascii) :
  Forall (fun c => c ∉ re.special) p -> re.parse p = Some (map re.Lit p).
Proof.
  induction 1 as [| c p Hc _ IH]; [reflexivity |]. cbn [re.parse map].
  destruct (Ascii.eqb_spec c ".") as [-> | _].
  - exfalso. apply Hc. apply list_elem_of_In. vm_compute. tauto.
  - destruct (existsb (Ascii.eqb c) re.special) eqn:Hex.
    + exfalso. apply Hc. apply existsb_exists in Hex as (x & Hin & Hx).
      apply Ascii.eqb_eq in Hx as ->. by apply list_elem_of_In.
    + by rewrite IH.
Qed.

Lemma match_here_lit (t : list ascii) :
  forall s : list ascii,
    re.match_here (map re.Lit t) s = true <->
    exists mid post, s = mid ++ post /\ map lower mid = map lower t.
Proof.
  induction t as [| c t IH]; intros s; simpl.
  - split; [intros _; by exists [], s |reflexivity].
  - destruct s as [| x s].
    + split; [discriminate |]. intros (mid & post & Hs & Hmid).
      symmetry in Hs. apply app_eq_nil in Hs as [-> _]. discriminate.
    + rewrite andb_true_iff, Ascii.eqb_eq, IH. split.
      * intros (Hx & mid & post & -> & Hmid).
        exists (x :: mid), post. simpl. by rewrite Hx, Hmid.
      * intros (mid & post & Hs & Hmid).
        destruct mid as [| y mid]; [discriminate |].
        simpl in Hs, Hmid. injection Hs as <- ->. injection Hmid as Hy Hmid.
        split; [exact Hy | by exists mid, post].
Qed.

Lemma search_offset (p : list re.atom) :
  forall s : list ascii,
    re.search p s = true <->
    exists pre rest, s = pre ++ rest /\ re.match_here p rest = true.
Proof.
  induction s as [| x s IH]; simpl.
  - rewrite orb_false_r. split.
    + intros Hm. by exists [], [].
    + intros (pre & rest & Hs & Hm).
      symmetry in Hs. apply app_eq_nil in Hs as [_ ->]. exact Hm.
  - rewrite orb_true_iff, IH. split.
    + intros [Hm | (pre & rest & -> & Hm)].
      * by exists [], (x :: s).
      * by exists (x :: pre), rest.
    + intros (pre & rest & Hs & Hm). destruct pre as [| y pre].
      * left. simpl in Hs. by subst rest.
      * right. simpl in Hs. injection Hs as <- ->. by exists pre, rest.
Qed.

(** Searching the characters of [term], taken as they are, is looking
    for [term] as a substring, letter case ignored. *)
Lemma search_lit_contains_ci (term s : string) :
  re.search (map re.Lit (list_ascii_of_string term)) (list_ascii_of_string s) = true
  <-> contains_ci term s.
Proof.
  unfold contains_ci. rewrite search_offset. split.
  - intros (pre & rest & Hs & (mid & post & -> & Hmid)%match_here_lit).
    by exists pre, mid, post.
  - intros (pre & mid & post & Hs & Hmid).
    exists pre, (mid ++ post). split; [exact Hs |].
    apply match_here_lit. by exists mid, post.
Qed.

Lemma filter_all (f : Row -> bool) (rows : list Row) :
  (forall r, f r = true) -> List.filter f rows = rows.
Proof.
  intros Hall. induction rows as [| r rows IH]; simpl; [reflexivity |].
  by rewrite Hall, IH.
Qed.


Lemma str_contains_plain (term : string) (field : Row -> string) (rows : list Row) :
  plain_term term ->
  str_contains (map field rows) term =
  Some (map (fun r => re.search (map re.Lit (list_ascii_of_string term))
                        (list_ascii_of_string (field r))) rows).
Proof.
  intros Hplain. unfold str_contains, re.compile.
  rewrite (parse_plain _ Hplain). cbn [mbind option_bind]. by rewrite map_map.
Qed.

(** C6, as the code has it. For a search term without any character of
    the regular-expression syntax, the frame shown is the rows whose
    patient identifier or neighbourhood contains the term, letter case
    ignored, and only they, in the order of the cohort; for the empty term
    it is the frame itself. *)
Theorem display_df_plain_term (term : string) (rows : list Row) :
  plain_term term ->
  exists keep : Row -> bool,
    (forall r, keep r = true <->
       contains_ci term (PatientId r) \/ contains_ci term (Neighbourhood r)) /\
    display_df term (Frame rows) = Some (Returned (Frame (List.filter keep rows))) /\
    sublist (List.filter keep rows) rows /\
    (forall df, display_df "" df = Some (Returned df)).
Proof.
  intros Hplain.
  exists (fun r =>
            re.search (map re.Lit (list_ascii_of_string term))
              (list_ascii_of_string (PatientId r)) ||
            re.search (map re.Lit (list_ascii_of_string term))
              (list_ascii_of_string (Neighbourhood r))).
  split; [| split; [| split]].
  - intros r. by rewrite orb_true_iff, !search_lit_contains_ci.
  - unfold display_df. destruct (String.eqb_spec term "") as [-> | Hne].
    + rewrite filter_all; [reflexivity |]. intros r. simpl.
      by destruct (list_ascii_of_string (PatientId r)).
    + unfold pd.getitem.
      rewrite (str_contains_plain term PatientId rows Hplain).
      rewrite (str_contains_plain term Neighbourhood rows Hplain).
      cbn [mbind option_bind]. rewrite or_map, getitem_mask_map. reflexivity.
  - apply filter_sublist.
  - intros df. reflexivity.
Qed.

Lemma display_df_plain_term_witness :
  plain_term "penha" /\
  exists keep : Row -> bool,
    (forall r, keep r = true <->
       contains_ci "penha" (PatientId r) \/ contains_ci "penha" (Neighbourhood r)) /\
    display_df "penha" (Frame [sample_row 0 1 "No" 2])
      = Some (Returned (Frame (List.filter keep [sample_row 0 1 "No" 2]))) /\
    sublist (List.filter keep [sample_row 0 1 "No" 2]) [sample_row 0 1 "No" 2] /\
    (forall df, display_df "" df = Some (Returned df)).
Proof.
  assert (plain_term "penha") as Hplain.
  { unfold plain_term. apply Forall_forall. intros c Hc Hsp.
    apply list_elem_of_In in Hc, Hsp. vm_compute in Hc, Hsp.
    intuition congruence. }
  split; [exact Hplain |].
  exact (display_df_plain_term "penha" [sample_row 0 1 "No" 2] Hplain).
Defined.

(** Letter case is ignored, in the term and in the fields. *)
Example display_df_ignores_case :
  display_df "p-10001" (Frame [sample_row 0 1 "Yes" 6; sample_row 1 1 "No" 2])
    = Some (Returned (Frame [sample_row 1 1 "No" 2])) /\
  display_df "Jardim" (Frame [sample_row 0 1 "Yes" 6; sample_row 1 1 "No" 2])
    = Some (Returned (Frame [sample_row 0 1 "Yes" 6; sample_row 1 1 "No" 2])) /\
  display_df "PRAIA" (Frame [sample_row 0 1 "Yes" 6; sample_row 1 1 "No" 2])
    = Some (Returned (Frame [])).
Proof. repeat split; vm_compute; reflexivity. Qed.

(** The accented capital of the fifth neighbourhood is found by its
    small letter (code point 234). *)
Example display_df_accented :
  lower "202" = "234"%char /\
  re.search [re.Lit "234"%char] (list_ascii_of_string (nth 4 neighbourhoods "")) = true.
Proof. split; reflexivity. Qed.

(** A term with another character of the regular-expression syntax is
    not covered by the model. *)
Example display_df_outside_model :
  display_df "(" (Frame [sample_row 0 1 "Yes" 6]) = None.
Proof. reflexivity. Qed.

(** C6, as the specification states it, fails: the term is a regular
    expression.  The dot matches any character, so the term [.] shows a
    row although neither its patient identifier nor its neighbourhood
    contains a dot. *)
Lemma display_df_dot_shows_all :
  display_df "." (Frame [sample_row 0 1 "No" 2])
    = Some (Returned (Frame [sample_row 0 1 "No" 2])) /\
  ~ contains_ci "." (PatientId (sample_row 0 1 "No" 2)) /\
  ~ contains_ci "." (Neighbourhood (sample_row 0 1 "No" 2)).
Proof.
  split; [vm_compute; reflexivity |].
  split; rewrite <- search_lit_contains_ci; vm_compute; discriminate.
Qed.

(** * Further properties *)

(** ** Following the world through the generator *)

Lemma runs_ret {A : Type} (a : A) (w : World) (P : A -> World -> Prop) :
  P a w -> runs (mret a) w P.
Proof. intros HP. exists a, w. split; [reflexivity | exact HP]. Qed.

Lemma runs_bind {A B : Type} (m : M A) (f : A -> M B) (w : World)
    (P : A -> World -> Prop) (Q : B -> World -> Prop) :
  runs m w P ->
  (forall a w', P a w' -> runs (f a) w' Q) ->
  runs (m ≫= f) w Q.
Proof.
  intros (a & w1 & Hm & HP) Hf.
  destruct (Hf a w1 HP) as (b & w2 & Hfa & HQ).
  exists b, w2. split; [| exact HQ].
  unfold mbind, M_bind. rewrite Hm. exact Hfa.
Qed.

Lemma runs_weaken {A : Type} (m : M A) (w : World) (P Q : A -> World -> Prop) :
  runs m w P -> (forall a w', P a w' -> Q a w') -> runs m w Q.
Proof. intros (a & w' & Hm & HP) HPQ. exists a, w'. auto. Qed.

Lemma runs_functional {A : Type} (m : M A) (w : World) (P : A -> World -> Prop)
    (a : A) (w' : World) :
  runs m w P -> m w = Returned (a, w') -> P a w'.
Proof. intros (a0 & w0 & Hm & HP) Hrun. rewrite Hm in Hrun. by injection Hrun as <- <-. Qed.

Lemma advance_advance (a b c d : nat) (w : World) :
  advance a b (advance c d w) = advance (a + c) (b + d) w.
Proof. unfold advance. simpl. f_equal; lia. Qed.

Lemma next_draw_runs (w : World) :
  runs next_draw w (fun raw w' => Z.of_N raw = draw w 0 /\ w' = advance 1 0 w).
Proof. eexists _, _. split; [reflexivity | split; reflexivity]. Qed.

Lemma datetime_now_runs (w : World) :
  runs datetime_now w (fun now w' => now = clock w (read w) /\ w' = advance 0 1 w).
Proof. eexists _, _. split; [reflexivity | split; reflexivity]. Qed.

Lemma randint_runs (low high : Z) (w : World) :
  low < high ->
  runs (np_random.randint low high) w
    (fun v w' => v = low + draw w 0 mod (high - low) /\ w' = advance 1 0 w).
Proof.
  intros Hlt. unfold np_random.randint.
  destruct (Z.ltb_spec low high) as [_ | Hge]; [| lia].
  eapply runs_bind; [apply next_draw_runs |].
  intros raw w' [Hraw ->]. apply runs_ret. by rewrite Hraw.
Qed.

Lemma choice_uniform_runs {A : Type} (a : list A) (w : World) :
  a <> [] ->
  runs (np_random.choice a None) w (fun x w' => x ∈ a /\ w' = advance 1 0 w).
Proof.
  destruct a as [| d a']; [congruence | intros _].
  unfold np_random.choice.
  eapply runs_bind; [apply next_draw_runs |].
  intros raw w' [_ ->]. apply runs_ret. split; [| reflexivity].
  apply list_elem_of_In, nth_In.
  pose proof (N.mod_upper_bound raw (N.of_nat (length (d :: a')))) as Hb.
  simpl length in *. lia.
Qed.

Lemma choice_weighted_runs {A : Type} (a : list A) (p : list Z) (w : World) :
  a <> [] ->
  length p = length a ->
  forallb (fun wt => 0 <=? wt) p = true ->
  fold_right Z.add 0 p = 100 ->
  runs (np_random.choice a (Some p)) w
    (fun x w' =>
       np_random.pick_cdf a p (draw w 0 mod 100) = Some x /\ x ∈ a /\
       w' = advance 1 0 w).
Proof.
  destruct a as [| d a']; [congruence | intros _ Hlen Hpos Hsum].
  unfold np_random.choice.
  rewrite Hlen, Nat.eqb_refl, Hpos, Hsum, Z.eqb_refl. simpl negb. cbv iota.
  eapply runs_bind; [apply next_draw_runs |].
  intros raw w' [Hraw ->]. rewrite Hraw.
  destruct (pick_cdf_some (d :: a') p (draw w 0 mod 100)) as (x & Hx & Hin).
  - exact Hlen.
  - rewrite Hsum. apply Z.mod_pos_bound. lia.
  - rewrite Hx. apply runs_ret. by repeat split.
Qed.

Lemma elem_of_pair {A : Type} (x a b : A) : x ∈ [a; b] -> x = a \/ x = b.
Proof.
  intros [-> | Hx]%elem_of_cons; [by left |].
  apply elem_of_cons in Hx as [-> | Hx]; [by right | by apply elem_of_nil in Hx].
Qed.

(** One turn of the loop: the row, read off the twelve draws and the
    clock reading it consumes. *)
Lemma load_data_row_runs (i : Z) (w : World) :
  runs (load_data_row i) w
    (fun r w' => row_drawn w r /\ row_domains r /\ w' = advance 12 1 w).
Proof.
  unfold load_data_row.
  eapply runs_bind;
    [ apply choice_weighted_runs; [discriminate | reflexivity | reflexivity | reflexivity] |].
  intros is_no_show w1 (Hns & Hns_in & ->).
  eapply runs_bind;
    [ apply choice_weighted_runs; [discriminate | reflexivity | reflexivity | reflexivity] |].
  intros has_sms w2 (Hsms & Hsms_in & ->).
  eapply runs_bind; [apply (randint_runs 5 85); lia |].
  intros age w3 (Hage & ->).
  eapply runs_bind; [apply datetime_now_runs |].
  intros now w4 (Hnow & ->).
  eapply runs_bind; [apply (randint_runs 1 30); lia |].
  intros back w5 (Hback & ->).
  eapply runs_bind; [apply (randint_runs 0 15); lia |].
  intros lead_days w6 (Hlead & ->).
  eapply runs_bind;
    [ apply choice_weighted_runs; [discriminate | reflexivity | reflexivity | reflexivity] |].
  intros diabetes w7 (_ & Hdia & ->).
  eapply runs_bind;
    [ apply choice_weighted_runs; [discriminate | reflexivity | reflexivity | reflexivity] |].
  intros hipertension w8 (_ & Hhip & ->).
  eapply runs_bind; [apply choice_uniform_runs; discriminate |].
  intros gender w9 (Hgender & ->).
  eapply runs_bind; [apply choice_uniform_runs; discriminate |].
  intros neighbourhood w10 (Hneigh & ->).
  eapply runs_bind;
    [ apply choice_weighted_runs; [discriminate | reflexivity | reflexivity | reflexivity] |].
  intros scholarship w11 (_ & Hsch & ->).
  eapply runs_bind;
    [ apply choice_weighted_runs; [discriminate | reflexivity | reflexivity | reflexivity] |].
  intros alcoholism w12 (_ & Halc & ->).
  eapply runs_bind;
    [ apply choice_weighted_runs; [discriminate | reflexivity | reflexivity | reflexivity] |].
  intros handcap w13 (_ & Hhan & ->).
  apply runs_ret. split; [| split; [| reflexivity]].
  - constructor; simpl.
    + exact Hns.
    + exact Hsms.
    + exact Hage.
    + rewrite Hnow, Hback. reflexivity.
    + rewrite Hlead. apply Z.add_0_l.
  - constructor; simpl; first [by apply elem_of_pair | exact Hneigh].
Qed.

Lemma advance_0 (w : World) : advance 0 0 w = w.
Proof. by destruct w. Qed.

(** The loop, row by row: the [k]-th new row is built in the world
    reached after [12 * k] draws and [k] clock readings. *)
Lemma load_data_loop_runs (xs : list Z) :
  forall (acc : list Row) (w : World),
    runs
      (for_each xs (fun i data => row ← load_data_row i; mret (data ++ [row])) acc)
      w
      (fun data w' => exists new,
         data = acc ++ new /\ length new = length xs /\
         w' = advance (12 * length xs) (length xs) w /\
         forall (k : nat) (r : Row), new !! k = Some r ->
           row_drawn (advance (12 * k) k w) r /\ row_domains r).
Proof.
  induction xs as [| i xs IH]; intros acc w; simpl for_each.
  - apply runs_ret. exists []. rewrite app_nil_r, advance_0.
    split; [reflexivity |]. split; [reflexivity |]. split; [reflexivity |].
    intros k r Hk. by rewrite lookup_nil in Hk.
  - apply runs_bind
      with (P := fun data w' => exists row,
                   data = acc ++ [row] /\ row_drawn w row /\ row_domains row /\
                   w' = advance 12 1 w).
    + eapply runs_bind; [apply load_data_row_runs |].
      intros row w1 (Hdrawn & Hdom & ->). apply runs_ret. by exists row.
    + intros data w1 (row & -> & Hdrawn & Hdom & ->).
      eapply runs_weaken; [apply IH |].
      intros out w2 (new & -> & Hlen & -> & Hnew).
      exists (row :: new). split; [by rewrite <- app_assoc |].
      split; [simpl; by rewrite Hlen |]. split.
      * rewrite advance_advance. simpl length. f_equal; lia.
      * intros [| k] r Hk; simpl in Hk.
        -- injection Hk as <-. by rewrite advance_0.
        -- destruct (Hnew k r Hk) as [Hd Hdm]. split; [| exact Hdm].
           rewrite advance_advance in Hd.
           by replace (12 * S k)%nat with (12 * k + 12)%nat by lia;
              replace (S k) with (k + 1)%nat by lia.
Qed.

(** [load_data] in full: the world it leaves and how each row was drawn. *)
Lemma load_data_runs (count : Z) (w : World) :
  runs (load_data count) w
    (fun df w' =>
       df = pd.DataFrame (records df) /\
       length (records df) = Z.to_nat count /\
       w' = advance (12 * Z.to_nat count) (Z.to_nat count) w /\
       forall (k : nat) (r : Row), records df !! k = Some r ->
         row_drawn (advance (12 * k) k w) r /\ row_domains r).
Proof.
  unfold load_data.
  eapply runs_bind; [apply load_data_loop_runs |].
  intros data w1 (new & -> & Hlen & -> & Hnew). simpl in *.
  rewrite length_range in *.
  apply runs_ret. split; [by destruct new |]. split; [by destruct new |].
  split; [reflexivity |]. by destruct new.
Qed.

(** The two descriptions of a run speak of the same frame. *)
Lemma load_data_full (count : Z) (w : World) :
  exists df w',
    load_data count w = Returned (df, w') /\
    df = pd.DataFrame (records df) /\
    length (records df) = Z.to_nat count /\
    w' = advance (12 * Z.to_nat count) (Z.to_nat count) w /\
    forall (k : nat) (r : Row), records df !! k = Some r ->
      row_ok (Z.of_nat k) r /\ row_drawn (advance (12 * k) k w) r /\ row_domains r.
Proof.
  destruct (load_data_runs count w) as (df & w' & Hrun & Hdf & Hlen & Hw & Hrows).
  exists df, w'. do 4 (split; [done |]). intros k r Hk.
  split; [| by apply Hrows].
  destruct (load_data_returns count w) as (df0 & w0 & Hrun0 & data & _ & Hrec & Hall).
  rewrite Hrun in Hrun0. injection Hrun0 as <- <-. rewrite <- Hrec in Hall.
  by eapply generated_row_ok.
Qed.

Lemma records_DataFrame (data : list Row) : records (pd.DataFrame data) = data.
Proof. by destruct data. Qed.

Lemma for_each_app {A S : Type} (body : A -> S -> M S) (xs ys : list A) :
  forall (acc : S) (w : World),
    for_each (xs ++ ys) body acc w =
    (acc' ← for_each xs body acc; for_each ys body acc') w.
Proof.
  induction xs as [| x xs IH]; intros acc w; simpl; [reflexivity |].
  unfold mbind, M_bind in *. destruct (body x acc w) as [[acc1 w1] | e]; [| reflexivity].
  apply IH.
Qed.

Lemma range_app (n m : Z) :
  n <= m -> exists rest, range m = range n ++ rest.
Proof.
  intros Hle. unfold range.
  exists (map Z.of_nat (seq (Z.to_nat n) (Z.to_nat m - Z.to_nat n))).
  rewrite <- map_app, <- seq_app. do 2 f_equal. lia.
Qed.

Lemma load_data_loop (count : Z) (w : World) :
  load_data count w =
  match
    for_each (range count)
      (fun i data => row ← load_data_row i; mret (data ++ [row])) [] w
  with
  | Returned (data, w') => Returned (pd.DataFrame data, w')
  | Raised e => Raised e
  end.
Proof. reflexivity. Qed.

(** ** The generator, further *)

(** X1. Every row of a generated frame takes its drawn fields from the
    lists of the source: the outcome is Yes or No, the gender F or M, the
    neighbourhood one of the five names, and each of the six flags 0 or 1. *)
Theorem load_data_field_values (count : Z) (w : World) :
  exists df w',
    load_data count w = Returned (df, w') /\
    forall r, r ∈ records df ->
      No_show r ∈ ["Yes"; "No"] /\
      Gender r ∈ ["F"; "M"] /\
      Neighbourhood r ∈ neighbourhoods /\
      Forall (fun flag => flag = 0 \/ flag = 1)
        [SMS_received r; Scholarship r; Hipertension r; Diabetes r;
         Alcoholism r; Handcap r].
Proof.
  destruct (load_data_full count w) as (df & w' & Hrun & _ & _ & _ & Hrows).
  exists df, w'. split; [exact Hrun |].
  intros r [k Hk]%list_elem_of_lookup.
  destruct (Hrows k r Hk) as (_ & _ & [Hns Hsms Hg Hn Hsch Hhip Hdia Halc Hhan]).
  split; [destruct Hns as [-> | ->]; repeat constructor |].
  split; [destruct Hg as [-> | ->]; repeat constructor |].
  split; [exact Hn |]. repeat (constructor; [assumption |]). constructor.
Qed.

(** X2. The row at index [k] of a generated frame was booked between 29
    days and 1 day before the clock reading taken for it (the [k]-th of
    the run), and its appointment falls on or after the booking, at most
    13 days after that reading. *)
Theorem load_data_schedule_window (count : Z) (w : World) :
  exists df w',
    load_data count w = Returned (df, w') /\
    forall (k : nat) (r : Row), records df !! k = Some r ->
      clock w (k + read w)%nat - timedelta 29 <= ScheduledDay r
        <= clock w (k + read w)%nat - timedelta 1 /\
      ScheduledDay r <= AppointmentDay r <= clock w (k + read w)%nat + timedelta 13.
Proof.
  destruct (load_data_full count w) as (df & w' & Hrun & _ & _ & _ & Hrows).
  exists df, w'. split; [exact Hrun |].
  intros k r Hk. destruct (Hrows k r Hk) as (Hok & Hdrawn & _).
  pose proof (drawn_scheduled _ _ Hdrawn) as Hs.
  pose proof (ok_day _ _ Hok) as Hday. pose proof (ok_lead _ _ Hok) as Hlead.
  pose proof (Z.mod_pos_bound (draw (advance (12 * k) k w) 3) 29) as Hback.
  generalize dependent (draw (advance (12 * k) k w) 3 mod 29). intros back Hs Hback.
  cbn [advance clock read] in Hs. unfold timedelta in *. lia.
Qed.

(** X3. With the same draws and clock, a shorter cohort is the beginning
    of a longer one: for [n <= m] the rows of [load_data(n)] are the first
    rows of [load_data(m)]. *)
Theorem load_data_prefix (n m : Z) (w : World) :
  n <= m ->
  exists dn wn dm wm,
    load_data n w = Returned (dn, wn) /\
    load_data m w = Returned (dm, wm) /\
    records dn `prefix_of` records dm.
Proof.
  intros Hle. destruct (range_app n m Hle) as (rest & Hrest).
  destruct (load_data_loop_returns (range n) [] w) as (data & w1 & Hn & _).
  destruct (load_data_loop_returns rest data w1) as (data' & w2 & Hm & new & -> & _).
  exists (pd.DataFrame data), w1, (pd.DataFrame (data ++ new)), w2.
  split; [| split].
  - by rewrite load_data_loop, Hn.
  - rewrite load_data_loop, Hrest, for_each_app.
    unfold mbind at 1, M_bind at 1. by rewrite Hn, Hm.
  - rewrite !records_DataFrame. by exists new.
Qed.

Lemma load_data_prefix_witness :
  2 <= 5 /\
  exists dn wn dm wm,
    load_data 2 (const_world 7 1000) = Returned (dn, wn) /\
    load_data 5 (const_world 7 1000) = Returned (dm, wm) /\
    records dn `prefix_of` records dm.
Proof. split; [lia | apply (load_data_prefix 2 5 (const_world 7 1000)); lia]. Defined.

(** X4. A call of [load_data(count)] that the cache does not serve (the
    first with that [count]) makes twelve draws and takes one clock reading
    per row, none for a [count] that is not positive, and keeps the frame;
    a later call with the same [count] returns that frame again and makes
    no draw and takes no reading, in whatever world it is made. *)
Theorem load_data_cached_consumption (count : Z) (cache : gmap Z DataFrame) (w : World) :
  cache !! count = None ->
  exists df w',
    load_data_cached count cache w = Returned ((df, <[count := df]> cache), w') /\
    load_data count w = Returned (df, w') /\
    drawn w' = (12 * Z.to_nat count + drawn w)%nat /\
    read w' = (Z.to_nat count + read w)%nat /\
    tape w' = tape w /\ clock w' = clock w /\
    forall w2,
      load_data_cached count (<[count := df]> cache) w2
      = Returned ((df, <[count := df]> cache), w2).
Proof.
  intros Hmiss.
  destruct (load_data_full count w) as (df & w' & Hrun & _ & _ & Hw & _).
  exists df, w'. split; [| split; [exact Hrun |]].
  - unfold load_data_cached, st_cache_data. rewrite Hmiss.
    unfold mbind, M_bind. by rewrite Hrun.
  - rewrite Hw. do 4 (split; [reflexivity |]).
    intros w2. unfold load_data_cached, st_cache_data.
    by rewrite lookup_insert_eq.
Qed.

Lemma load_data_cached_consumption_witness :
  (∅ : gmap Z DataFrame) !! 3 = None /\
  exists df w',
    load_data_cached 3 ∅ (const_world 7 1000) = Returned ((df, <[3 := df]> ∅), w') /\
    load_data 3 (const_world 7 1000) = Returned (df, w') /\
    drawn w' = (12 * Z.to_nat 3 + drawn (const_world 7 1000))%nat /\
    read w' = (Z.to_nat 3 + read (const_world 7 1000))%nat /\
    tape w' = tape (const_world 7 1000) /\ clock w' = clock (const_world 7 1000) /\
    forall w2,
      load_data_cached 3 (<[3 := df]> ∅) w2 = Returned ((df, <[3 := df]> ∅), w2).
Proof.
  split; [apply lookup_empty |].
  apply (load_data_cached_consumption 3 ∅ (const_world 7 1000)), lookup_empty.
Defined.

Lemma load_data_positive_frame (count : Z) (df : DataFrame) :
  0 < count ->
  df = pd.DataFrame (records df) ->
  length (records df) = Z.to_nat count ->
  df = Frame (records df) /\ records df <> [].
Proof.
  intros Hpos Hdf Hlen. destruct (records df) as [| r rows] eqn:Hrec.
  - simpl in Hlen. lia.
  - split; [by rewrite Hdf | discriminate].
Qed.

Lemma truediv_returns (a b : Z) : b <> 0 -> exists q, truediv a b = Returned q.
Proof.
  intros Hb. unfold truediv. destruct (Z.eqb_spec b 0); [contradiction | by eexists].
Qed.

Lemma rate_returns (rows : list Row) :
  rows <> [] -> exists v, rate (Frame rows) = Returned v.
Proof.
  intros Hne. rewrite rate_frame.
  destruct (truediv_returns (count_no_show rows) (Z.of_nat (length rows))) as (q & ->).
  - destruct rows; [congruence | simpl; lia].
  - by eexists.
Qed.

Lemma group_rate_returns (rows : list Row) :
  rows <> [] -> exists v, group_rate (Frame rows) = Returned v.
Proof.
  intros Hne. rewrite group_rate_frame.
  destruct (truediv_returns (count_no_show rows) (Z.of_nat (length rows))) as (q & ->).
  - destruct rows; [congruence | simpl; lia].
  - by eexists.
Qed.

Lemma group_rate_no_rows : group_rate (Frame []) = Raised ZeroDivisionError.
Proof. reflexivity. Qed.

Lemma sms_rate_frame (rows : list Row) :
  sms_rate (Frame rows) =
  group_rate (Frame (List.filter (fun r => SMS_received r =? 1) rows)).
Proof. unfold sms_rate. by rewrite sms_group_frame. Qed.

Lemma no_sms_rate_frame (rows : list Row) :
  no_sms_rate (Frame rows) =
  group_rate (Frame (List.filter (fun r => SMS_received r =? 0) rows)).
Proof. unfold no_sms_rate. by rewrite no_sms_group_frame. Qed.

(** X5. The denominators of lines 102 and 103 are not guarded against
    the generator: in every run in which the reminder draw of each row
    (the second of its twelve draws) falls in the lower half, no row has a
    reminder, and on that cohort [rate] returns while [sms_rate], and with
    it [sms_impact], raises [ZeroDivisionError]. *)
Theorem sms_rate_raises_on_generated (count : Z) (w : World) :
  0 < count ->
  (forall k : nat, (k < Z.to_nat count)%nat ->
     Z.of_N (tape w (12 * k + 1 + drawn w)) mod 100 < 50) ->
  exists df w',
    load_data count w = Returned (df, w') /\
    (exists v, rate df = Returned v) /\
    sms_rate df = Raised ZeroDivisionError /\
    sms_impact df = Raised ZeroDivisionError.
Proof.
  intros Hpos Hlow.
  destruct (load_data_full count w) as (df & w' & Hrun & Hdf & Hlen & _ & Hrows).
  destruct (load_data_positive_frame count df Hpos Hdf Hlen) as [Hframe Hne].
  exists df, w'. split; [exact Hrun |]. rewrite Hframe.
  assert (sms_rate (Frame (records df)) = Raised ZeroDivisionError) as Hsms.
  { rewrite sms_rate_frame, filter_none; [reflexivity |].
    intros r [k Hk]%list_elem_of_lookup.
    destruct (Hrows k r Hk) as (_ & Hdrawn & _).
    pose proof (drawn_sms _ _ Hdrawn) as Hpick.
    assert (k < Z.to_nat count)%nat as Hk_lt.
    { rewrite <- Hlen. by eapply lookup_lt_Some. }
    specialize (Hlow k Hk_lt).
    unfold draw in Hpick. cbn [advance tape drawn] in Hpick.
    replace (1 + (12 * k + drawn w))%nat with (12 * k + 1 + drawn w)%nat in Hpick by lia.
    cbn [np_random.pick_cdf] in Hpick.
    destruct (Z.ltb_spec (Z.of_N (tape w (12 * k + 1 + drawn w)) mod 100) 50);
      [| lia].
    injection Hpick as <-. reflexivity. }
  split; [by apply rate_returns |]. split; [exact Hsms |].
  unfold sms_impact. by rewrite Hsms.
Qed.

Lemma sms_rate_raises_on_generated_witness :
  0 < 3 /\
  (forall k : nat, (k < Z.to_nat 3)%nat ->
     Z.of_N (tape (const_world 0 0) (12 * k + 1 + drawn (const_world 0 0))) mod 100 < 50) /\
  exists df w',
    load_data 3 (const_world 0 0) = Returned (df, w') /\
    (exists v, rate df = Returned v) /\
    sms_rate df = Raised ZeroDivisionError /\
    sms_impact df = Raised ZeroDivisionError.
Proof.
  assert (forall k : nat, (k < Z.to_nat 3)%nat ->
            Z.of_N (tape (const_world 0 0) (12 * k + 1 + drawn (const_world 0 0)))
              mod 100 < 50) as Hlow by (intros; reflexivity).
  split; [lia |]. split; [exact Hlow |].
  apply (sms_rate_raises_on_generated 3 (const_world 0 0)); [lia | exact Hlow].
Defined.

(** X6. The bounds of the age and of the lead time are tight: every age
    from 5 to 84 and every lead time from 0 to 14 is that of a row in some
    run. *)
Theorem load_data_age_lead_reached (age lead : Z) :
  5 <= age <= 84 ->
  0 <= lead <= 14 ->
  exists w df w' r,
    load_data 1 w = Returned (df, w') /\
    r ∈ records df /\ Age r = age /\ LeadDays r = lead.
Proof.
  intros Hage Hlead.
  set (w := mkWorld (fun n => if (n =? 2)%nat then Z.to_N (age - 5) else Z.to_N lead)
              0 (fun _ => 0) 0).
  destruct (load_data_full 1 w) as (df & w' & Hrun & _ & Hlen & _ & Hrows).
  destruct (records df) as [| r rows] eqn:Hrec; [discriminate |].
  exists w, df, w', r. split; [exact Hrun |]. rewrite Hrec. split; [left |].
  destruct (Hrows 0%nat r eq_refl) as (_ & Hdrawn & _).
  rewrite advance_0 in Hdrawn.
  rewrite (drawn_age _ _ Hdrawn), (drawn_lead _ _ Hdrawn).
  unfold draw, w. simpl. rewrite !Z2N.id by lia.
  rewrite !Z.mod_small by lia. split; lia.
Qed.

Lemma load_data_age_lead_reached_witness :
  5 <= 84 <= 84 /\ 0 <= 14 <= 14 /\
  exists w df w' r,
    load_data 1 w = Returned (df, w') /\
    r ∈ records df /\ Age r = 84 /\ LeadDays r = 14.
Proof.
  split; [lia |]. split; [lia |]. apply (load_data_age_lead_reached 84 14); lia.
Defined.

(** ** Filters over the rows *)

Lemma filter_perm (f : Row -> bool) (rows rows' : list Row) :
  Permutation rows rows' -> Permutation (List.filter f rows) (List.filter f rows').
Proof.
  induction 1 as [| r l l' _ IH | r1 r2 l | l1 l2 l3 _ IH1 _ IH2]; simpl.
  - constructor.
  - destruct (f r); [by constructor | exact IH].
  - destruct (f r1), (f r2); try reflexivity. apply perm_swap.
  - by etransitivity.
Qed.

Lemma filter_split_perm (f g : Row -> bool) (rows : list Row) :
  (forall r, r ∈ rows -> f r = negb (g r)) ->
  Permutation (List.filter f rows ++ List.filter g rows) rows.
Proof.
  induction rows as [| r rows IH]; intros Hfg; simpl; [constructor |].
  assert (Permutation (List.filter f rows ++ List.filter g rows) rows) as Hrest.
  { apply IH. intros r' Hr'. apply Hfg. by right. }
  rewrite (Hfg r) by left. destruct (g r); simpl.
  - rewrite <- Permutation_middle. by constructor.
  - by constructor.
Qed.

Lemma filter_exists (f : Row -> bool) (rows : list Row) :
  List.filter f rows <> [] <-> exists r, r ∈ rows /\ f r = true.
Proof.
  split.
  - intros Hne. destruct (List.filter f rows) as [| r out] eqn:Hout; [congruence |].
    exists r. rewrite list_elem_of_In. apply filter_In. rewrite Hout. by left.
  - intros (r & Hr & Hf) Hnil.
    assert (In r (List.filter f rows)) as Hin.
    { apply filter_In. by rewrite <- list_elem_of_In. }
    by rewrite Hnil in Hin.
Qed.

Lemma filter_absorb (f g : Row -> bool) (rows : list Row) :
  (forall r, g r = true -> f r = true) ->
  List.filter f (List.filter g rows) = List.filter g rows.
Proof.
  intros Himp. induction rows as [| r rows IH]; simpl; [reflexivity |].
  destruct (g r) eqn:Hg; [| exact IH]. simpl. by rewrite (Himp r Hg), IH.
Qed.

Lemma filter_comm (f g : Row -> bool) (rows : list Row) :
  List.filter f (List.filter g rows) = List.filter g (List.filter f rows).
Proof.
  induction rows as [| r rows IH]; simpl; [reflexivity |].
  destruct (g r) eqn:Hg, (f r) eqn:Hf; simpl; rewrite ?Hg, ?Hf, IH; reflexivity.
Qed.

Lemma filter_sublist_imp (f g : Row -> bool) (rows : list Row) :
  (forall r, f r = true -> g r = true) ->
  sublist (List.filter f rows) (List.filter g rows).
Proof.
  intros Himp. induction rows as [| r rows IH]; simpl; [constructor |].
  destruct (f r) eqn:Hf.
  - rewrite (Himp r Hf). by constructor.
  - destruct (g r); [by constructor | exact IH].
Qed.

Lemma count_no_show_app (a b : list Row) :
  count_no_show (a ++ b) = count_no_show a + count_no_show b.
Proof. unfold count_no_show. rewrite map_app, count_occ_app. lia. Qed.

Lemma count_no_show_bounds (rows : list Row) :
  0 <= count_no_show rows <= Z.of_nat (length rows).
Proof.
  rewrite <- length_no_shows. pose proof (filter_length_le row_is_no_show rows). lia.
Qed.

Lemma est_loss_frame (rows : list Row) :
  est_loss (Frame rows) = Returned (count_no_show rows * 150).
Proof.
  unfold est_loss. rewrite no_shows_frame. cbn [mbind outcome_bind pd.len].
  by rewrite length_no_shows.
Qed.

Lemma shows_frame (rows : list Row) :
  shows (Frame rows) =
  Returned (Frame (List.filter (fun r => String.eqb (No_show r) "No") rows)).
Proof.
  unfold shows, pd.getitem, pd.eq_str. cbn [mbind outcome_bind].
  rewrite map_map. apply (getitem_mask_map (fun r => String.eqb (No_show r) "No")).
Qed.

Lemma high_risk_frame (rows : list Row) :
  high_risk (Frame rows) =
  Returned (Frame (List.filter (fun r => row_is_no_show r && (5 <? LeadDays r)) rows)).
Proof.
  unfold high_risk, pd.getitem. cbn [mbind outcome_bind].
  rewrite eq_str_no_show. unfold pd.gt_int. rewrite map_map.
  rewrite (and_map row_is_no_show (fun r => 5 <? LeadDays r)).
  apply getitem_mask_map.
Qed.

Lemma group_rate_Permutation (rows rows' : list Row) :
  Permutation rows rows' -> group_rate (Frame rows) = group_rate (Frame rows').
Proof.
  intros Hperm. rewrite !group_rate_frame.
  by rewrite (count_no_show_Permutation _ _ Hperm), (Permutation_length Hperm).
Qed.

(** ** The KPI block, further *)

(** X7. When every outcome is Yes or No and every reminder flag 0 or 1,
    the shows and the no-shows split the cohort, and so do the reminded
    and the unreminded: each pair holds every row exactly once, so the
    sizes add up to [len(df)]. *)
Theorem kpi_groups_split (rows : list Row) :
  (forall r, r ∈ rows -> No_show r = "Yes" \/ No_show r = "No") ->
  (forall r, r ∈ rows -> SMS_received r = 0 \/ SMS_received r = 1) ->
  exists missed came reminded unreminded,
    no_shows (Frame rows) = Returned (Frame missed) /\
    shows (Frame rows) = Returned (Frame came) /\
    sms_group (Frame rows) = Returned (Frame reminded) /\
    no_sms_group (Frame rows) = Returned (Frame unreminded) /\
    Permutation (missed ++ came) rows /\
    Permutation (reminded ++ unreminded) rows /\
    pd.len (Frame missed) + pd.len (Frame came) = total_apts (Frame rows) /\
    pd.len (Frame reminded) + pd.len (Frame unreminded) = total_apts (Frame rows).
Proof.
  intros Hns Hsms.
  assert (Permutation
            (List.filter row_is_no_show rows ++
             List.filter (fun r => String.eqb (No_show r) "No") rows) rows) as Hp1.
  { apply filter_split_perm. intros r Hr. unfold row_is_no_show.
    by destruct (Hns r Hr) as [-> | ->]. }
  assert (Permutation
            (List.filter (fun r => SMS_received r =? 1) rows ++
             List.filter (fun r => SMS_received r =? 0) rows) rows) as Hp2.
  { apply filter_split_perm. intros r Hr. by destruct (Hsms r Hr) as [-> | ->]. }
  eexists _, _, _, _.
  split; [apply no_shows_frame |]. split; [apply shows_frame |].
  split; [apply sms_group_frame |]. split; [apply no_sms_group_frame |].
  split; [exact Hp1 |]. split; [exact Hp2 |].
  apply Permutation_length in Hp1, Hp2. rewrite length_app in Hp1, Hp2.
  unfold total_apts, pd.len. lia.
Qed.

Lemma kpi_groups_split_witness :
  (forall r, r ∈ [sample_row 0 1 "Yes" 6; sample_row 1 0 "No" 2] ->
     No_show r = "Yes" \/ No_show r = "No") /\
  (forall r, r ∈ [sample_row 0 1 "Yes" 6; sample_row 1 0 "No" 2] ->
     SMS_received r = 0 \/ SMS_received r = 1) /\
  exists missed came reminded unreminded,
    no_shows (Frame [sample_row 0 1 "Yes" 6; sample_row 1 0 "No" 2])
      = Returned (Frame missed) /\
    shows (Frame [sample_row 0 1 "Yes" 6; sample_row 1 0 "No" 2])
      = Returned (Frame came) /\
    sms_group (Frame [sample_row 0 1 "Yes" 6; sample_row 1 0 "No" 2])
      = Returned (Frame reminded) /\
    no_sms_group (Frame [sample_row 0 1 "Yes" 6; sample_row 1 0 "No" 2])
      = Returned (Frame unreminded) /\
    Permutation (missed ++ came) [sample_row 0 1 "Yes" 6; sample_row 1 0 "No" 2] /\
    Permutation (reminded ++ unreminded)
      [sample_row 0 1 "Yes" 6; sample_row 1 0 "No" 2] /\
    pd.len (Frame missed) + pd.len (Frame came)
      = total_apts (Frame [sample_row 0 1 "Yes" 6; sample_row 1 0 "No" 2]) /\
    pd.len (Frame reminded) + pd.len (Frame unreminded)
      = total_apts (Frame [sample_row 0 1 "Yes" 6; sample_row 1 0 "No" 2]).
Proof.
  assert (forall r, r ∈ [sample_row 0 1 "Yes" 6; sample_row 1 0 "No" 2] ->
            No_show r = "Yes" \/ No_show r = "No") as H1.
  { intros r [-> | ->]%elem_of_pair; [by left | by right]. }
  assert (forall r, r ∈ [sample_row 0 1 "Yes" 6; sample_row 1 0 "No" 2] ->
            SMS_received r = 0 \/ SMS_received r = 1) as H2.
  { intros r [-> | ->]%elem_of_pair; [by right | by left]. }
  split; [exact H1 |]. split; [exact H2 |].
  exact (kpi_groups_split _ H1 H2).
Defined.

(** X8. [sms_impact] returns a float exactly when the cohort has a row
    with a reminder and a row without; whenever it raises, it raises
    [ZeroDivisionError]. *)
Theorem sms_impact_outcome (rows : list Row) :
  ((exists v, sms_impact (Frame rows) = Returned v) <->
   (exists r, r ∈ rows /\ SMS_received r = 1) /\
   (exists r, r ∈ rows /\ SMS_received r = 0)) /\
  (forall e, sms_impact (Frame rows) = Raised e -> e = ZeroDivisionError).
Proof.
  unfold sms_impact. rewrite sms_rate_frame, no_sms_rate_frame.
  pose proof (filter_exists (fun r => SMS_received r =? 1) rows) as H1.
  pose proof (filter_exists (fun r => SMS_received r =? 0) rows) as H0.
  setoid_rewrite Z.eqb_eq in H1. setoid_rewrite Z.eqb_eq in H0.
  rewrite <- H1, <- H0.
  destruct (List.filter (fun r => SMS_received r =? 1) rows) as [| r1 g1].
  - rewrite group_rate_no_rows. cbn [mbind outcome_bind]. split.
    + split; [intros (v & Hv); discriminate | intros [Hne _]; congruence].
    + intros e [= <-]. reflexivity.
  - destruct (group_rate_returns (r1 :: g1)) as (s & ->); [discriminate |].
    cbn [mbind outcome_bind].
    destruct (List.filter (fun r => SMS_received r =? 0) rows) as [| r0 g0].
    + rewrite group_rate_no_rows. cbn [mbind outcome_bind]. split.
      * split; [intros (v & Hv); discriminate | intros [_ Hne]; congruence].
      * intros e [= <-]. reflexivity.
    + destruct (group_rate_returns (r0 :: g0)) as (n & ->); [discriminate |].
      cbn [mbind outcome_bind]. split.
      * split; [intros _; split; discriminate | intros _; by eexists].
      * intros e He. discriminate.
Qed.

(** X9. The estimated loss adds up over cohorts put end to end, and lies
    between 0 and 150 times the number of rows. *)
Theorem est_loss_additive (a b : list Row) :
  exists x y,
    est_loss (Frame a) = Returned x /\
    est_loss (Frame b) = Returned y /\
    est_loss (Frame (a ++ b)) = Returned (x + y) /\
    0 <= x <= 150 * pd.len (Frame a).
Proof.
  exists (count_no_show a * 150), (count_no_show b * 150).
  rewrite !est_loss_frame, count_no_show_app.
  split; [reflexivity |]. split; [reflexivity |].
  split; [f_equal; lia |].
  pose proof (count_no_show_bounds a). simpl pd.len. lia.
Qed.

(** X10. Like [rate], the other figures of the page do not depend on the
    order of the rows: a permutation of the cohort has the same estimated
    loss, the same outcome of [sms_rate], [no_sms_rate] and [sms_impact],
    and a high-risk queue with the same rows. *)
Theorem kpis_permutation (rows rows' : list Row) :
  Permutation rows rows' ->
  est_loss (Frame rows) = est_loss (Frame rows') /\
  sms_rate (Frame rows) = sms_rate (Frame rows') /\
  no_sms_rate (Frame rows) = no_sms_rate (Frame rows') /\
  sms_impact (Frame rows) = sms_impact (Frame rows') /\
  exists queue queue',
    high_risk (Frame rows) = Returned (Frame queue) /\
    high_risk (Frame rows') = Returned (Frame queue') /\
    Permutation queue queue'.
Proof.
  intros Hperm.
  assert (sms_rate (Frame rows) = sms_rate (Frame rows')) as Hs.
  { rewrite !sms_rate_frame. by apply group_rate_Permutation, filter_perm. }
  assert (no_sms_rate (Frame rows) = no_sms_rate (Frame rows')) as Hn.
  { rewrite !no_sms_rate_frame. by apply group_rate_Permutation, filter_perm. }
  split; [by rewrite !est_loss_frame, (count_no_show_Permutation _ _ Hperm) |].
  split; [exact Hs |]. split; [exact Hn |].
  split; [unfold sms_impact; by rewrite Hs, Hn |].
  eexists _, _. split; [apply high_risk_frame |]. split; [apply high_risk_frame |].
  by apply filter_perm.
Qed.

Lemma kpis_permutation_witness :
  Permutation [sample_row 0 1 "Yes" 6; sample_row 1 0 "No" 2]
              [sample_row 1 0 "No" 2; sample_row 0 1 "Yes" 6] /\
  est_loss (Frame [sample_row 0 1 "Yes" 6; sample_row 1 0 "No" 2])
    = est_loss (Frame [sample_row 1 0 "No" 2; sample_row 0 1 "Yes" 6]) /\
  sms_rate (Frame [sample_row 0 1 "Yes" 6; sample_row 1 0 "No" 2])
    = sms_rate (Frame [sample_row 1 0 "No" 2; sample_row 0 1 "Yes" 6]) /\
  no_sms_rate (Frame [sample_row 0 1 "Yes" 6; sample_row 1 0 "No" 2])
    = no_sms_rate (Frame [sample_row 1 0 "No" 2; sample_row 0 1 "Yes" 6]) /\
  sms_impact (Frame [sample_row 0 1 "Yes" 6; sample_row 1 0 "No" 2])
    = sms_impact (Frame [sample_row 1 0 "No" 2; sample_row 0 1 "Yes" 6]) /\
  exists queue queue',
    high_risk (Frame [sample_row 0 1 "Yes" 6; sample_row 1 0 "No" 2])
      = Returned (Frame queue) /\
    high_risk (Frame [sample_row 1 0 "No" 2; sample_row 0 1 "Yes" 6])
      = Returned (Frame queue') /\
    Permutation queue queue'.
Proof. split; [apply perm_swap | apply kpis_permutation, perm_swap]. Defined.

(** X11. The high-risk queue is drawn from the no-shows, in their order;
    at 150 a visit it accounts for no more than the estimated loss. *)
Theorem high_risk_within_no_shows (rows : list Row) :
  exists queue missed loss,
    high_risk (Frame rows) = Returned (Frame queue) /\
    no_shows (Frame rows) = Returned (Frame missed) /\
    sublist queue missed /\
    est_loss (Frame rows) = Returned loss /\
    150 * pd.len (Frame queue) <= loss.
Proof.
  eexists _, _, _. split; [apply high_risk_frame |]. split; [apply no_shows_frame |].
  assert (sublist
            (List.filter (fun r => row_is_no_show r && (5 <? LeadDays r)) rows)
            (List.filter row_is_no_show rows)) as Hsub.
  { apply filter_sublist_imp. intros r Hr. by apply andb_true_iff in Hr as [? _]. }
  split; [exact Hsub |]. split; [apply est_loss_frame |].
  apply sublist_length in Hsub. rewrite <- length_no_shows. simpl pd.len. lia.
Qed.

(** X12. Filtering the queue again changes nothing: the high-risk queue
    of the queue is the queue, and every row of it is a no-show. *)
Theorem high_risk_idempotent (rows : list Row) :
  exists queue,
    high_risk (Frame rows) = Returned (Frame queue) /\
    high_risk (Frame queue) = Returned (Frame queue) /\
    no_shows (Frame queue) = Returned (Frame queue).
Proof.
  eexists. split; [apply high_risk_frame |]. split.
  - rewrite high_risk_frame. do 2 f_equal. by apply filter_absorb.
  - rewrite no_shows_frame. do 2 f_equal. apply filter_absorb.
    intros r Hr. by apply andb_true_iff in Hr as [? _].
Qed.

(** X13. On a generated cohort every row of the high-risk queue is a
    no-show booked 6 to 14 days ahead. *)
Theorem high_risk_on_generated (count : Z) (w : World) :
  0 < count ->
  exists df w' queue,
    load_data count w = Returned (df, w') /\
    high_risk df = Returned (Frame queue) /\
    forall r, r ∈ queue ->
      r ∈ records df /\ No_show r = "Yes" /\ 6 <= LeadDays r <= 14 /\
      ScheduledDay r + timedelta 6 <= AppointmentDay r.
Proof.
  intros Hpos.
  destruct (load_data_full count w) as (df & w' & Hrun & Hdf & Hlen & _ & Hrows).
  destruct (load_data_positive_frame count df Hpos Hdf Hlen) as [Hframe _].
  exists df, w',
    (List.filter (fun r => row_is_no_show r && (5 <? LeadDays r)) (records df)).
  split; [exact Hrun |].
  split; [rewrite Hframe at 1; apply high_risk_frame |].
  intros r Hr. apply list_elem_of_In, filter_In in Hr as [Hin Hr].
  apply andb_true_iff in Hr as [Hns Hlead].
  apply String.eqb_eq in Hns. apply Z.ltb_lt in Hlead.
  apply list_elem_of_In in Hin. split; [exact Hin |].
  apply list_elem_of_lookup in Hin as [k Hk].
  destruct (Hrows k r Hk) as (Hok & _ & _).
  pose proof (ok_lead _ _ Hok). pose proof (ok_day _ _ Hok).
  unfold timedelta in *. repeat split; [exact Hns | lia | lia | lia].
Qed.

Lemma high_risk_on_generated_witness :
  0 < 3 /\
  exists df w' queue,
    load_data 3 (const_world 7 1000) = Returned (df, w') /\
    high_risk df = Returned (Frame queue) /\
    forall r, r ∈ queue ->
      r ∈ records df /\ No_show r = "Yes" /\ 6 <= LeadDays r <= 14 /\
      ScheduledDay r + timedelta 6 <= AppointmentDay r.
Proof. split; [lia | apply (high_risk_on_generated 3 (const_world 7 1000)); lia]. Defined.

(** X14. On a generated cohort of [count > 0] rows [rate] returns, the
    estimated loss lies between 0 and 150 times [count], and no line of
    the KPI block raises anything but [ZeroDivisionError]. *)
Theorem kpis_on_generated (count : Z) (w : World) :
  0 < count ->
  exists df w' loss,
    load_data count w = Returned (df, w') /\
    (exists v, rate df = Returned v) /\
    est_loss df = Returned loss /\ 0 <= loss <= 150 * count /\
    forall e,
      sms_rate df = Raised e \/ no_sms_rate df = Raised e \/ sms_impact df = Raised e ->
      e = ZeroDivisionError.
Proof.
  intros Hpos.
  destruct (load_data_full count w) as (df & w' & Hrun & Hdf & Hlen & _ & _).
  destruct (load_data_positive_frame count df Hpos Hdf Hlen) as [Hframe Hne].
  destruct df as [| rows]; [discriminate | simpl in Hlen, Hne].
  exists (Frame rows), w', (count_no_show rows * 150).
  split; [exact Hrun |].
  split; [by apply rate_returns |]. split; [apply est_loss_frame |].
  split; [pose proof (count_no_show_bounds rows); lia |].
  assert (forall g e, group_rate (Frame g) = Raised e -> e = ZeroDivisionError) as Hg.
  { intros [| r g] e; [by intros [= <-] |].
    destruct (group_rate_returns (r :: g)) as (v & ->); discriminate. }
  intros e. unfold sms_impact. rewrite sms_rate_frame, no_sms_rate_frame.
  intros [He | [He | He]]; [by eapply Hg | by eapply Hg |].
  destruct (group_rate (Frame (List.filter (fun r => SMS_received r =? 1) rows)))
    as [s | e1] eqn:H1; cbn [mbind outcome_bind] in He.
  - destruct (group_rate (Frame (List.filter (fun r => SMS_received r =? 0) rows)))
      as [n | e0] eqn:H0; cbn [mbind outcome_bind] in He; [discriminate |].
    injection He as <-. by eapply Hg.
  - injection He as <-. by eapply Hg.
Qed.

Lemma kpis_on_generated_witness :
  0 < 3 /\
  exists df w' loss,
    load_data 3 (const_world 7 1000) = Returned (df, w') /\
    (exists v, rate df = Returned v) /\
    est_loss df = Returned loss /\ 0 <= loss <= 150 * 3 /\
    forall e,
      sms_rate df = Raised e \/ no_sms_rate df = Raised e \/ sms_impact df = Raised e ->
      e = ZeroDivisionError.
Proof. split; [lia | apply (kpis_on_generated 3 (const_world 7 1000)); lia]. Defined.

(** X15. The cohort of a [count] that is not positive has no columns:
    its length is 0, but every figure of the page that reads a column, and
    the search for any non-empty term, raises [KeyError]; only the empty
    search returns it. *)
Theorem kpis_on_nonpositive_count (count : Z) (w : World) (term : string) :
  count <= 0 ->
  term <> "" ->
  exists df w',
    load_data count w = Returned (df, w') /\
    pd.len df = 0 /\
    rate df = Raised (KeyError "No-show") /\
    sms_rate df = Raised (KeyError "SMS_received") /\
    no_sms_rate df = Raised (KeyError "SMS_received") /\
    est_loss df = Raised (KeyError "No-show") /\
    high_risk df = Raised (KeyError "No-show") /\
    display_df term df = Some (Raised (KeyError "PatientId")) /\
    display_df "" df = Some (Returned df).
Proof.
  intros Hle Hterm. exists EmptyFrame, w.
  split; [by rewrite load_data_loop, (range_nonpositive count Hle) |].
  do 6 (split; [reflexivity |]). split; [| reflexivity].
  unfold display_df. by destruct (String.eqb_spec term "").
Qed.

Lemma kpis_on_nonpositive_count_witness :
  0 <= 0 /\ "penha" <> "" /\
  exists df w',
    load_data 0 (const_world 7 1000) = Returned (df, w') /\
    pd.len df = 0 /\
    rate df = Raised (KeyError "No-show") /\
    sms_rate df = Raised (KeyError "SMS_received") /\
    no_sms_rate df = Raised (KeyError "SMS_received") /\
    est_loss df = Raised (KeyError "No-show") /\
    high_risk df = Raised (KeyError "No-show") /\
    display_df "penha" df = Some (Raised (KeyError "PatientId")) /\
    display_df "" df = Some (Returned df).
Proof.
  split; [lia |]. split; [discriminate |].
  apply (kpis_on_nonpositive_count 0 (const_world 7 1000) "penha"); [lia | discriminate].
Defined.

(** ** The search filter, further *)

Lemma search_nothing (s : list ascii) : re.search [] s = true.
Proof. by destruct s. Qed.

Lemma str_contains_compiled (term : string) (regex : list re.atom)
    (field : Row -> string) (rows : list Row) :
  re.compile term = Some regex ->
  str_contains (map field rows) term =
  Some (map (fun r => re.search regex (list_ascii_of_string (field r))) rows).
Proof.
  intros Hc. unfold str_contains. rewrite Hc. cbn [mbind option_bind].
  by rewrite map_map.
Qed.

(** A term that compiles filters the rows by the compiled pattern. *)
Lemma display_df_compiled (term : string) (regex : list re.atom) (rows : list Row) :
  re.compile term = Some regex ->
  display_df term (Frame rows) =
  Some (Returned (Frame (List.filter (shown_by regex) rows))).
Proof.
  intros Hc. unfold display_df. destruct (String.eqb_spec term "") as [-> | Hne].
  - injection Hc as <-. rewrite filter_all; [reflexivity |].
    intros r. unfold shown_by. by rewrite search_nothing.
  - unfold pd.getitem.
    rewrite (str_contains_compiled term regex PatientId rows Hc).
    rewrite (str_contains_compiled term regex Neighbourhood rows Hc).
    cbn [mbind option_bind]. rewrite or_map. by rewrite getitem_mask_map.
Qed.

Lemma compile_plain (term : string) :
  plain_term term ->
  re.compile term = Some (map re.Lit (list_ascii_of_string term)).
Proof. apply parse_plain. Qed.

Lemma shown_by_plain (term : string) (r : Row) :
  shown_by (map re.Lit (list_ascii_of_string term)) r = true <->
  contains_ci term (PatientId r) \/ contains_ci term (Neighbourhood r).
Proof. unfold shown_by. by rewrite orb_true_iff, !search_lit_contains_ci. Qed.

Lemma contains_ci_refl (s : string) : contains_ci s s.
Proof. exists [], (list_ascii_of_string s), []. by rewrite app_nil_r. Qed.

Lemma contains_ci_trans (t t' s : string) :
  contains_ci t t' -> contains_ci t' s -> contains_ci t s.
Proof.
  intros (pre & mid & post & Ht' & Hmid) (pre' & mid' & post' & Hs & Hmid').
  rewrite Ht', !map_app in Hmid'.
  apply fmap_app_inv in Hmid' as (m1 & m23 & _ & H23 & ->).
  symmetry in H23. apply fmap_app_inv in H23 as (m2 & m3 & H2 & _ & ->).
  exists (pre' ++ m1), m2, (m3 ++ post'). split.
  - rewrite Hs. by rewrite <- !app_assoc.
  - transitivity (map lower mid); [symmetry; exact H2 | exact Hmid].
Qed.

(** X16. For every term the model covers, dots included, the search of
    a cohort raises nothing and only drops rows: what is shown is a
    sublist of the cohort. *)
Theorem display_df_sublist (term : string) (regex : list re.atom) (rows : list Row) :
  re.compile term = Some regex ->
  exists shown,
    display_df term (Frame rows) = Some (Returned (Frame shown)) /\
    sublist shown rows.
Proof.
  intros Hc. eexists. split; [by apply display_df_compiled |]. apply filter_sublist.
Qed.

Lemma display_df_sublist_witness :
  re.compile "p-1.0" = Some [re.Lit "p"; re.Lit "-"; re.Lit "1"; re.AnyChar; re.Lit "0"] /\
  exists shown,
    display_df "p-1.0" (Frame [sample_row 0 1 "Yes" 6; sample_row 1 0 "No" 2])
      = Some (Returned (Frame shown)) /\
    sublist shown [sample_row 0 1 "Yes" 6; sample_row 1 0 "No" 2].
Proof.
  split; [reflexivity |].
  by apply (display_df_sublist "p-1.0"
              [re.Lit "p"; re.Lit "-"; re.Lit "1"; re.AnyChar; re.Lit "0"]).
Defined.

(** X17. Searches compose as filters: searching the result of a search
    for the same term shows the same rows, and two terms can be searched
    in either order. *)
Theorem display_df_compose (a b : string) (ra rb : list re.atom) (rows : list Row) :
  re.compile a = Some ra ->
  re.compile b = Some rb ->
  exists xa xb xab,
    display_df a (Frame rows) = Some (Returned (Frame xa)) /\
    display_df b (Frame rows) = Some (Returned (Frame xb)) /\
    display_df a (Frame xa) = Some (Returned (Frame xa)) /\
    display_df b (Frame xa) = Some (Returned (Frame xab)) /\
    display_df a (Frame xb) = Some (Returned (Frame xab)).
Proof.
  intros Ha Hb.
  exists (List.filter (shown_by ra) rows), (List.filter (shown_by rb) rows),
         (List.filter (shown_by rb) (List.filter (shown_by ra) rows)).
  rewrite !(display_df_compiled a ra) by exact Ha.
  rewrite !(display_df_compiled b rb) by exact Hb.
  split; [reflexivity |]. split; [reflexivity |].
  split; [by rewrite filter_absorb |]. split; [reflexivity |].
  by rewrite filter_comm.
Qed.

Lemma display_df_compose_witness :
  re.compile "." = Some [re.AnyChar] /\
  re.compile "pe" = Some [re.Lit "p"; re.Lit "e"] /\
  exists xa xb xab,
    display_df "." (Frame [sample_row 0 1 "Yes" 6]) = Some (Returned (Frame xa)) /\
    display_df "pe" (Frame [sample_row 0 1 "Yes" 6]) = Some (Returned (Frame xb)) /\
    display_df "." (Frame xa) = Some (Returned (Frame xa)) /\
    display_df "pe" (Frame xa) = Some (Returned (Frame xab)) /\
    display_df "." (Frame xb) = Some (Returned (Frame xab)).
Proof.
  split; [reflexivity |]. split; [reflexivity |].
  by apply (display_df_compose "." "pe" [re.AnyChar] [re.Lit "p"; re.Lit "e"]).
Defined.

(** X18. Typing more narrows the search: when a term of ordinary
    characters is contained, letter case ignored, in a longer one, the rows
    shown for the longer term are among the rows shown for the shorter. *)
Theorem display_df_narrows (short long : string) (rows : list Row) :
  plain_term short ->
  plain_term long ->
  contains_ci short long ->
  exists wide narrow,
    display_df short (Frame rows) = Some (Returned (Frame wide)) /\
    display_df long (Frame rows) = Some (Returned (Frame narrow)) /\
    sublist narrow wide.
Proof.
  intros Hshort Hlong Hin. eexists _, _.
  split; [apply display_df_compiled, compile_plain, Hshort |].
  split; [apply display_df_compiled, compile_plain, Hlong |].
  apply filter_sublist_imp. intros r. rewrite !shown_by_plain.
  intros [Hr | Hr]; [left | right]; by eapply contains_ci_trans.
Qed.

Lemma plain_penha : plain_term "penha" /\ plain_term "Pen".
Proof.
  split; unfold plain_term; apply Forall_forall; intros c Hc Hsp;
    apply list_elem_of_In in Hc, Hsp; vm_compute in Hc, Hsp; intuition congruence.
Qed.

Lemma display_df_narrows_witness :
  plain_term "Pen" /\ plain_term "penha" /\ contains_ci "Pen" "penha" /\
  exists wide narrow,
    display_df "Pen" (Frame [sample_row 0 1 "Yes" 6]) = Some (Returned (Frame wide)) /\
    display_df "penha" (Frame [sample_row 0 1 "Yes" 6])
      = Some (Returned (Frame narrow)) /\
    sublist narrow wide.
Proof.
  assert (contains_ci "Pen" "penha") as Hin.
  { exists [], (list_ascii_of_string "pen"), (list_ascii_of_string "ha").
    split; reflexivity. }
  split; [apply plain_penha |]. split; [apply plain_penha |]. split; [exact Hin |].
  apply display_df_narrows; [apply plain_penha | apply plain_penha | exact Hin].
Defined.

Ltac plain_by_computation :=
  unfold plain_term; apply Forall_forall; intros ?c ?Hc ?Hsp;
  match goal with
  | Hc : _ ∈ _, Hsp : _ ∈ re.special |- _ =>
      apply list_elem_of_In in Hc, Hsp; vm_compute in Hc, Hsp; intuition congruence
  end.

(** X19. The letter case of the term does not matter: two terms of
    ordinary characters that read the same in lower case show the same
    rows. *)
Theorem display_df_term_case (term term' : string) (rows : list Row) :
  plain_term term ->
  plain_term term' ->
  map lower (list_ascii_of_string term) = map lower (list_ascii_of_string term') ->
  display_df term (Frame rows) = display_df term' (Frame rows).
Proof.
  intros Hplain Hplain' Hlower.
  rewrite (display_df_compiled term _ rows (compile_plain term Hplain)).
  rewrite (display_df_compiled term' _ rows (compile_plain term' Hplain')).
  do 3 f_equal. apply filter_ext_in. intros r _.
  apply eq_true_iff_eq. rewrite !shown_by_plain.
  unfold contains_ci. by rewrite Hlower.
Qed.

Lemma display_df_term_case_witness :
  plain_term "PENHA" /\ plain_term "penha" /\
  map lower (list_ascii_of_string "PENHA") = map lower (list_ascii_of_string "penha") /\
  display_df "PENHA" (Frame [sample_row 0 1 "Yes" 6])
    = display_df "penha" (Frame [sample_row 0 1 "Yes" 6]).
Proof.
  assert (plain_term "PENHA") as H1 by plain_by_computation.
  assert (plain_term "penha") as H2 by plain_by_computation.
  split; [exact H1 |]. split; [exact H2 |]. split; [reflexivity |].
  by apply display_df_term_case.
Defined.

Lemma neighbourhoods_plain (name : string) :
  name ∈ neighbourhoods -> plain_term name.
Proof.
  intros Hname. apply list_elem_of_In in Hname. simpl in Hname.
  destruct Hname as [<- | [<- | [<- | [<- | [<- | []]]]]]; plain_by_computation.
Qed.

(** X20. Searching one of the five neighbourhood names, as the source
    spells it, shows every row of that neighbourhood. *)
Theorem display_df_neighbourhood (name : string) (rows : list Row) :
  name ∈ neighbourhoods ->
  exists shown,
    display_df name (Frame rows) = Some (Returned (Frame shown)) /\
    forall r, r ∈ rows -> Neighbourhood r = name -> r ∈ shown.
Proof.
  intros Hname. eexists.
  split; [apply display_df_compiled, compile_plain, neighbourhoods_plain, Hname |].
  intros r Hr Hn. apply list_elem_of_In, filter_In.
  split; [by apply list_elem_of_In |].
  apply shown_by_plain. right. rewrite Hn. apply contains_ci_refl.
Qed.

Lemma display_df_neighbourhood_witness :
  "MATA DA PRAIA" ∈ neighbourhoods /\
  exists shown,
    display_df "MATA DA PRAIA" (Frame [sample_row 0 1 "Yes" 6])
      = Some (Returned (Frame shown)) /\
    forall r, r ∈ [sample_row 0 1 "Yes" 6] ->
      Neighbourhood r = "MATA DA PRAIA" -> r ∈ shown.
Proof.
  assert ("MATA DA PRAIA" ∈ neighbourhoods) as Hname by (right; left).
  split; [exact Hname | by apply display_df_neighbourhood].
Defined.

(** ** The cards of the high-risk queue *)

Lemma patient_ids_NoDup (count : Z) (w : World) (df : DataFrame) (w' : World) :
  load_data count w = Returned (df, w') -> NoDup (map PatientId (records df)).
Proof.
  intros Hrun.
  destruct (load_data_returns count w) as (df0 & w0 & Hrun0 & data & _ & Hrec & Hall).
  rewrite Hrun in Hrun0. injection Hrun0 as <- <-. rewrite Hrec.
  apply (prefixed_pretty_NoDup "P-" 10000 (range count)); [apply range_NoDup |].
  eapply Forall2_impl; [exact Hall |]. intros i r Hok. apply (ok_patient _ _ Hok).
Qed.

(** X21. On a generated cohort the page shows at most five cards, one
    for each of the first rows of the high-risk queue, and the keys of
    their call buttons are all different. *)
Theorem call_button_keys_generated (count : Z) (w : World) :
  0 < count ->
  exists df w' queue keys,
    load_data count w = Returned (df, w') /\
    high_risk df = Returned (Frame queue) /\
    call_button_keys df = Returned keys /\
    length keys = Nat.min 5 (length queue) /\
    NoDup keys.
Proof.
  intros Hpos.
  destruct (load_data_full count w) as (df & w' & Hrun & Hdf & Hlen & _ & _).
  destruct (load_data_positive_frame count df Hpos Hdf Hlen) as [Hframe _].
  pose proof (patient_ids_NoDup count w df w' Hrun) as Hids.
  destruct df as [| rows]; [discriminate | simpl in Hids].
  exists (Frame rows), w',
    (List.filter (fun r => row_is_no_show r && (5 <? LeadDays r)) rows),
    (map (fun row => "btn_" +:+ PatientId row)
       (take 5 (List.filter (fun r => row_is_no_show r && (5 <? LeadDays r)) rows))).
  split; [exact Hrun |]. split; [apply high_risk_frame |].
  split; [unfold call_button_keys; by rewrite high_risk_frame |].
  split; [by rewrite length_map, length_take |].
  rewrite <- (map_map PatientId (String.app "btn_")).
  apply (NoDup_fmap_2 (String.app "btn_")).
  eapply sublist_NoDup; [exact Hids |].
  apply (fmap_sublist PatientId). etransitivity; [apply sublist_take |].
  apply filter_sublist.
Qed.

Lemma call_button_keys_generated_witness :
  0 < 3 /\
  exists df w' queue keys,
    load_data 3 (const_world 7 1000) = Returned (df, w') /\
    high_risk df = Returned (Frame queue) /\
    call_button_keys df = Returned keys /\
    length keys = Nat.min 5 (length queue) /\
    NoDup keys.
Proof.
  split; [lia | apply (call_button_keys_generated 3 (const_world 7 1000)); lia].
Defined.

(** ** The breakdown of the no-shows by gender *)

Lemma value_counts_lookup (s : list string) (g : string) :
  value_counts s !! g =
  match count_occ string_dec s g with
  | O => None
  | S n => Some (Z.of_nat (S n))
  end.
Proof.
  induction s as [| x s IH]; [reflexivity |].
  cbn [value_counts foldr count_occ]. fold (value_counts s).
  destruct (string_dec x g) as [-> | Hne].
  - rewrite lookup_insert_eq, IH.
    destruct (count_occ string_dec s g); simpl default; f_equal; lia.
  - by rewrite lookup_insert_ne.
Qed.

Lemma value_counts_default (s : list string) (g : string) :
  default 0 (value_counts s !! g) = Z.of_nat (count_occ string_dec s g).
Proof. rewrite value_counts_lookup. by destruct (count_occ string_dec s g). Qed.

Lemma count_occ_gender (rows : list Row) (g : string) :
  count_occ string_dec (map Gender rows) g =
  length (List.filter (fun r => String.eqb (Gender r) g) rows).
Proof.
  induction rows as [| r rows IH]; [reflexivity |]. simpl.
  destruct (string_dec (Gender r) g) as [Heq | Hne].
  - apply String.eqb_eq in Heq. rewrite Heq. simpl. by rewrite IH.
  - apply String.eqb_neq in Hne. by rewrite Hne.
Qed.

Lemma gender_counts_frame (rows : list Row) :
  gender_counts (Frame rows) =
  Returned (value_counts (map Gender (List.filter row_is_no_show rows))).
Proof. unfold gender_counts. by rewrite no_shows_frame. Qed.

(** X22. The breakdown has an entry for a gender exactly when some
    no-show row has that gender, and the entry is the number of such rows:
    a gender without no-show has no entry, not a zero. *)
Theorem gender_counts_entries (rows : list Row) :
  exists missed counts,
    no_shows (Frame rows) = Returned (Frame missed) /\
    gender_counts (Frame rows) = Returned counts /\
    forall (g : string) (n : Z),
      counts !! g = Some n <->
      0 < n /\
      n = Z.of_nat (length (List.filter (fun r => String.eqb (Gender r) g) missed)).
Proof.
  eexists _, _. split; [apply no_shows_frame |]. split; [apply gender_counts_frame |].
  intros g n. rewrite value_counts_lookup, count_occ_gender.
  destruct (length _) as [| k]; split.
  - discriminate.
  - intros [Hpos ->]. simpl in Hpos. lia.
  - intros [= <-]. split; [lia | reflexivity].
  - intros [_ ->]. reflexivity.
Qed.

Lemma count_occ_two (s : list string) (a b : string) :
  a <> b ->
  (forall x, x ∈ s -> x = a \/ x = b) ->
  (count_occ string_dec s a + count_occ string_dec s b)%nat = length s.
Proof.
  intros Hab. induction s as [| x s IH]; intros Hall; [reflexivity |]. simpl.
  assert (count_occ string_dec s a + count_occ string_dec s b = length s)%nat as Hs.
  { apply IH. intros y Hy. apply Hall. by right. }
  destruct (Hall x) as [-> | ->]; [left | |].
  - destruct (string_dec a a); [| congruence]. destruct (string_dec a b); [congruence |]. lia.
  - destruct (string_dec b a); [congruence |]. destruct (string_dec b b); [| congruence]. lia.
Qed.

(** X23. On a generated cohort the breakdown has entries for F and M
    only, and the two counts add up to the number of no-shows. *)
Theorem gender_counts_generated (count : Z) (w : World) :
  0 < count ->
  exists df w' missed counts,
    load_data count w = Returned (df, w') /\
    no_shows df = Returned (Frame missed) /\
    gender_counts df = Returned counts /\
    (forall g, is_Some (counts !! g) -> g = "F" \/ g = "M") /\
    default 0 (counts !! "F") + default 0 (counts !! "M") = pd.len (Frame missed).
Proof.
  intros Hpos.
  destruct (load_data_full count w) as (df & w' & Hrun & Hdf & Hlen & _ & Hrows).
  destruct (load_data_positive_frame count df Hpos Hdf Hlen) as [Hframe _].
  destruct df as [| rows]; [discriminate | simpl in Hrows].
  exists (Frame rows), w', (List.filter row_is_no_show rows),
         (value_counts (map Gender (List.filter row_is_no_show rows))).
  split; [exact Hrun |]. split; [apply no_shows_frame |].
  split; [apply gender_counts_frame |].
  assert (forall g, g ∈ map Gender (List.filter row_is_no_show rows) ->
                    g = "F" \/ g = "M") as Hgender.
  { intros g (r & -> & Hr)%list_elem_of_fmap.
    apply list_elem_of_In, filter_In in Hr as [Hr _].
    apply list_elem_of_In, list_elem_of_lookup in Hr as [k Hk].
    destruct (Hrows k r Hk) as (_ & _ & Hdom). apply (dom_gender _ Hdom). }
  split.
  - intros g [n Hn]. apply Hgender, list_elem_of_In.
    destruct (in_dec string_dec g (map Gender (List.filter row_is_no_show rows)))
      as [Hin | Hout]; [exact Hin |].
    rewrite value_counts_lookup in Hn.
    apply (count_occ_not_In string_dec) in Hout. by rewrite Hout in Hn.
  - rewrite !value_counts_default. simpl pd.len.
    rewrite <- (length_map Gender (List.filter row_is_no_show rows)).
    rewrite <- (count_occ_two _ "F" "M"); [lia | discriminate | exact Hgender].
Qed.

Lemma gender_counts_generated_witness :
  0 < 3 /\
  exists df w' missed counts,
    load_data 3 (const_world 7 1000) = Returned (df, w') /\
    no_shows df = Returned (Frame missed) /\
    gender_counts df = Returned counts /\
    (forall g, is_Some (counts !! g) -> g = "F" \/ g = "M") /\
    default 0 (counts !! "F") + default 0 (counts !! "M") = pd.len (Frame missed).
Proof.
  split; [lia | apply (gender_counts_generated 3 (const_world 7 1000)); lia].
Defined.
